(** * Tier derivation for LRS configurations

    A shallow embedding of [scripts/update_lrs_tiers.py]: the function
    [add_enhanced_tiers] walks the models of a configuration registry and
    derives two extra hyper-parameter tiers, [xxs] from [xs] and [xxl] from
    [xl].

    The file has three parts.
    - Python values, exceptions and the builtins the script calls
      (insertion-ordered dictionaries, arithmetic with int/float coercion on
      IEEE binary64, [str] and [in] on strings).
    - The body of the loop as a function on values ([augment]) and the whole
      loop on a store of dictionary objects ([add_enhanced_tiers]), which
      keeps object identity so that in-place updates can be told apart from
      the construction of new dictionaries.
    - The properties of the specification, settled against those
      definitions. *)

From Stdlib Require Import ZArith List String Ascii Bool Lia.
From Stdlib Require Import DecimalString.
From Stdlib Require Import PrimFloat SpecFloat FloatOps FloatAxioms.
Import ListNotations.

Set Warnings "-inexact-float,-register-all".

Local Open Scope string_scope.
Local Open Scope Z_scope.
Local Open Scope list_scope.

(** ** Python values *)

(** What [json.load] produces: [None], booleans, unbounded integers,
    doubles, strings, lists and dictionaries with string keys.  A dictionary
    is the list of its entries in insertion order; its keys are pairwise
    distinct ([dict_wf] below).  A string is a sequence of characters with
    code points below 256. *)
Inductive value : Type :=
| VNone
| VBool (b : bool)
| VInt (n : Z)
| VFloat (x : float)
| VStr (s : string)
| VList (items : list value)
| VDict (entries : list (string * value)).

Definition dict : Type := list (string * value).

(** The exceptions the modelled statements can raise. *)
Inductive exn : Type :=
| TypeError
| AttributeError
| OverflowError.

Inductive result (A : Type) : Type :=
| Ok (a : A)
| Raise (e : exn).

Arguments Ok {A} a.
Arguments Raise {A} e.

Definition bind {A B : Type} (m : result A) (k : A -> result B) : result B :=
  match m with
  | Ok a => k a
  | Raise e => Raise e
  end.

Notation "x <- m ;; k" := (bind m (fun x => k))
  (at level 61, m at next level, right associativity).

(** ** Insertion-ordered dictionaries *)

(** The operations are those of Python's [dict] with string keys; they are
    used at two types of stored values, plain values here and object
    references in the store further down. *)
Section Dict.

Context {V : Type}.

(** [k in d] *)
Fixpoint dict_has (k : string) (d : list (string * V)) : bool :=
  match d with
  | [] => false
  | (k', _) :: d' => if String.eqb k k' then true else dict_has k d'
  end.

(** [d[k]] when the key is there *)
Fixpoint dict_lookup (k : string) (d : list (string * V)) : option V :=
  match d with
  | [] => None
  | (k', v) :: d' => if String.eqb k k' then Some v else dict_lookup k d'
  end.

(** [d.get(k, default)] *)
Definition dict_get (k : string) (default : V) (d : list (string * V)) : V :=
  match dict_lookup k d with
  | Some v => v
  | None => default
  end.

(** [d[k] = v]: an existing key keeps its position and takes the new
    value, a new key goes last. *)
Fixpoint dict_set (k : string) (v : V) (d : list (string * V))
  : list (string * V) :=
  match d with
  | [] => [(k, v)]
  | (k', v') :: d' =>
      if String.eqb k k' then (k', v) :: d' else (k', v') :: dict_set k v d'
  end.

(** [{**acc, **d}]: the entries of [d] are stored into [acc] one after the
    other, in the order of [d]. *)
Definition dict_update (acc d : list (string * V)) : list (string * V) :=
  fold_left (fun a kv => dict_set (fst kv) (snd kv) a) d acc.

(** The dictionary display [{k: v, **d}]. *)
Definition dict_prepend (k : string) (v : V) (d : list (string * V))
  : list (string * V) :=
  dict_update [(k, v)] d.

Definition keys (d : list (string * V)) : list string := map fst d.

(** The keys of a dictionary object are pairwise distinct. *)
Definition dict_wf (d : list (string * V)) : Prop := NoDup (keys d).

(** The entries of [d] other than the one under [k], in their order. *)
Definition remove_key (k : string) (d : list (string * V))
  : list (string * V) :=
  filter (fun kv => negb (String.eqb k (fst kv))) d.

End Dict.

(** The dictionary with the same keys and [f] applied to each value. *)
Definition map_values {A B : Type} (f : A -> B) (d : list (string * A))
  : list (string * B) :=
  map (fun kv => (fst kv, f (snd kv))) d.

(** ** Numbers *)

(** The result of an arithmetic expression: an [int] or a [float]. *)
Inductive num : Type :=
| NInt (n : Z)
| NFloat (x : float).

Definition of_num (a : num) : value :=
  match a with
  | NInt n => VInt n
  | NFloat x => VFloat x
  end.

(** Conversion of an [int] operand to [float]: correctly rounded (to
    nearest, ties to even); an integer that rounds beyond the largest
    double raises [OverflowError]. *)
Definition float_of_Z (n : Z) : result float :=
  let x := SF2Prim (binary_normalize prec emax n 0 false) in
  if is_infinity x then Raise OverflowError else Ok x.

(** [v + k] for an [int] literal [k].  [bool] is a subclass of [int]; any
    other operand type raises [TypeError]. *)
Definition py_add_int (v : value) (k : Z) : result num :=
  match v with
  | VBool b => Ok (NInt (Z.b2z b + k))
  | VInt n => Ok (NInt (n + k))
  | VFloat x => kf <- float_of_Z k ;; Ok (NFloat (x + kf)%float)
  | _ => Raise TypeError
  end.

(** [v - k] for an [int] literal [k]. *)
Definition py_sub_int (v : value) (k : Z) : result num :=
  match v with
  | VBool b => Ok (NInt (Z.b2z b - k))
  | VInt n => Ok (NInt (n - k))
  | VFloat x => kf <- float_of_Z k ;; Ok (NFloat (x - kf)%float)
  | _ => Raise TypeError
  end.

(** [v * c] for a [float] literal [c]: always a [float]. *)
Definition py_mul_float (v : value) (c : float) : result float :=
  match v with
  | VBool b => x <- float_of_Z (Z.b2z b) ;; Ok (x * c)%float
  | VInt n => x <- float_of_Z n ;; Ok (x * c)%float
  | VFloat x => Ok (x * c)%float
  | _ => Raise TypeError
  end.

(** The literals compared against below (8 and 16) are doubles, so the
    exact int/float comparison of Python is the comparison of doubles. *)
Definition float_of_small (k : Z) : float :=
  SF2Prim (binary_normalize prec emax k 0 false).

(** [max(k, a)]: the first argument wins unless [a > k]. *)
Definition py_max_int (k : Z) (a : num) : num :=
  match a with
  | NInt n => if k <? n then NInt n else NInt k
  | NFloat x => if (float_of_small k <? x)%float then NFloat x else NInt k
  end.

(** [min(k, a)]: the first argument wins unless [a < k]. *)
Definition py_min_int (k : Z) (a : num) : num :=
  match a with
  | NInt n => if n <? k then NInt n else NInt k
  | NFloat x => if (x <? float_of_small k)%float then NFloat x else NInt k
  end.

(** [min(c, x)] on doubles: [c] unless [x < c] (so [c] when [x] is NaN). *)
Definition py_min_float (c x : float) : float :=
  if (x <? c)%float then x else c.

(** ** Strings: [repr], [str] and the substring test *)

(** [needle in hay] on strings. *)
Fixpoint contains (needle hay : string) : bool :=
  if String.prefix needle hay then true
  else match hay with
       | EmptyString => false
       | String _ rest => contains needle rest
       end.

Fixpoint join (sep : string) (parts : list string) : string :=
  match parts with
  | [] => ""
  | [p] => p
  | p :: rest => (p ++ sep ++ join sep rest)%string
  end.

Fixpoint has_char (c : ascii) (s : string) : bool :=
  match s with
  | EmptyString => false
  | String c' rest => if Ascii.eqb c c' then true else has_char c rest
  end.

Definition squote : ascii := ascii_of_nat 39.
Definition dquote : ascii := ascii_of_nat 34.
Definition backslash : ascii := ascii_of_nat 92.

Definition hex_digit (n : N) : ascii :=
  match String.get (N.to_nat n) "0123456789abcdef" with
  | Some c => c
  | None => "0"%char
  end.

(** The escape [\xhh] of a code point below 256. *)
Definition hex_escape (n : N) : string :=
  String backslash
    (String "x" (String (hex_digit (n / 16)) (String (hex_digit (n mod 16)) ""))).

(** One character of [repr(s)]: the quote and the backslash are escaped,
    tab, newline and carriage return have their letter, and every other
    character that is not printable (the control characters, DEL, 0x80 to
    0xa0 and the soft hyphen 0xad) is written in hexadecimal. *)
Definition repr_char (quote c : ascii) : string :=
  let n := N_of_ascii c in
  if Ascii.eqb c quote || Ascii.eqb c backslash then String backslash (String c "")
  else if (n =? 9)%N then String backslash "t"
  else if (n =? 10)%N then String backslash "n"
  else if (n =? 13)%N then String backslash "r"
  else if (n <? 32)%N || (n =? 127)%N then hex_escape n
  else if (n <? 127)%N then String c ""
  else if (n <=? 160)%N || (n =? 173)%N then hex_escape n
  else String c "".

Fixpoint repr_chars (quote : ascii) (s : string) : string :=
  match s with
  | EmptyString => ""
  | String c rest => (repr_char quote c ++ repr_chars quote rest)%string
  end.

(** [repr(s)] for a string: single quotes, unless the string holds a single
    quote and no double quote. *)
Definition repr_str (s : string) : string :=
  let quote := if has_char squote s && negb (has_char dquote s)
               then dquote else squote in
  String quote (repr_chars quote s ++ String quote "")%string.

(** [repr(n)] for an [int]: its decimal digits. *)
Definition repr_int (n : Z) : string := NilZero.string_of_int (Z.to_int n).

Section Derivation.

(** [repr(x)] for a [float] is the shortest decimal string that reads back
    as [x]; the script only searches its output for a fixed word, and the
    development is carried out for an arbitrary rendering of doubles. *)
Variable repr_float : float -> string.

Fixpoint repr (v : value) : string :=
  match v with
  | VNone => "None"
  | VBool true => "True"
  | VBool false => "False"
  | VInt n => repr_int n
  | VFloat x => repr_float x
  | VStr s => repr_str s
  | VList items => ("[" ++ join ", " (map repr items) ++ "]")%string
  | VDict entries =>
      ("{" ++ join ", " (map (fun kv => repr_str (fst kv) ++ ": " ++ repr (snd kv))
                             entries) ++ "}")%string
  end.

(** [str(v)]: a string is itself, anything else is its [repr]. *)
Definition py_str (v : value) : string :=
  match v with
  | VStr s => s
  | _ => repr v
  end.

(** ** The two derivations *)

(** [if key in config: config[key] = config[key] * factor] *)
Definition scale_if_present (key : string) (factor : float) (config : dict)
  : result dict :=
  match dict_lookup key config with
  | Some v => x <- py_mul_float v factor ;; Ok (dict_set key (VFloat x) config)
  | None => Ok config
  end.

(** [if key in config: config[key] = min(ceiling, config[key] * factor)] *)
Definition scale_and_cap_if_present (key : string) (ceiling factor : float)
  (config : dict) : result dict :=
  match dict_lookup key config with
  | Some v =>
      x <- py_mul_float v factor ;;
      Ok (dict_set key (VFloat (py_min_float ceiling x)) config)
  | None => Ok config
  end.

(** The list stored at lines 37-41. *)
Definition xxs_optimizer_args : value :=
  VList [VStr "betas=(0.9, 0.999)"; VStr "weight_decay=0.0002"; VStr "eps=1e-08"].

(** The test of line 35. *)
Definition mentions_weight_decay (config : dict) : bool :=
  contains "weight_decay" (py_str (dict_get "optimizer_args" (VList []) config)).

(** Lines 25-41, on the copy of the [xs] tier: the statements in their
    order, each working on the dictionary left by the one before. *)
Definition derive_xxs (xxs_config : dict) : result dict :=
  epochs <- py_add_int (dict_get "max_train_epochs" (VInt 38) xxs_config) 7 ;;
  let c := dict_set "max_train_epochs" (of_num epochs) xxs_config in
  let c := dict_set "train_batch_size" (VInt 2) c in
  let c := dict_set "gradient_accumulation_steps" (VInt 4) c in
  c <- scale_if_present "unet_lr" 0.8%float c ;;
  c <- scale_if_present "text_encoder_lr" 0.8%float c ;;
  let c := dict_set "noise_offset" (VFloat 0.015%float) c in
  let c := dict_set "lr_scheduler" (VStr "constant_with_warmup") c in
  let c := dict_set "max_data_loader_n_workers" (VInt 2) c in
  Ok (if mentions_weight_decay c
      then dict_set "optimizer_args" xxs_optimizer_args c
      else c).

(** Lines 49-59, on the copy of the [xl] tier. *)
Definition derive_xxl (xxl_config : dict) : result dict :=
  epochs <- py_sub_int (dict_get "max_train_epochs" (VInt 11) xxl_config) 3 ;;
  let c := dict_set "max_train_epochs" (of_num (py_max_int 8 epochs)) xxl_config in
  batch <- py_add_int (dict_get "train_batch_size" (VInt 12) c) 4 ;;
  let c := dict_set "train_batch_size" (of_num (py_min_int 16 batch)) c in
  let c := dict_set "gradient_accumulation_steps" (VInt 1) c in
  c <- scale_and_cap_if_present "unet_lr" 5e-05%float 1.15%float c ;;
  c <- scale_and_cap_if_present "text_encoder_lr" 2.5e-06%float 1.15%float c ;;
  let c := dict_set "noise_offset" (VFloat 0.045%float) c in
  let c := dict_set "lr_scheduler" (VStr "cosine") c in
  warmup <- py_add_int (dict_get "lr_warmup_steps" (VInt 120) c) 30 ;;
  let c := dict_set "lr_warmup_steps" (of_num warmup) c in
  Ok (dict_set "max_data_loader_n_workers" (VInt 8) c).

(** ** The loop body on values *)

(** [v.copy()]: dictionaries and lists have the method, the other values
    raise [AttributeError]. *)
Definition py_copy (v : value) : result value :=
  match v with
  | VDict d => Ok (VDict d)
  | VList l => Ok (VList l)
  | _ => Raise AttributeError
  end.

(** Truth value of what [copy] returned: an empty container is false. *)
Definition truthy (v : value) : bool :=
  match v with
  | VNone => false
  | VBool b => b
  | VInt n => negb (n =? 0)
  | VFloat x => negb (is_zero x)
  | VStr s => negb (String.eqb s "")
  | VList l => match l with [] => false | _ => true end
  | VDict d => match d with [] => false | _ => true end
  end.

(** The body of a derivation applied to the copy: a list has no [get]
    method, the first statement raises [AttributeError]. *)
Definition derive_on (derive : dict -> result dict) (config : value)
  : result dict :=
  match config with
  | VDict d => derive d
  | _ => Raise AttributeError
  end.

(** Lines 23-41 and 47-59: the source tier is copied, and when the copy is
    not empty the statements of the derivation run on it.  [None] when the
    copy is empty: no tier is produced. *)
Definition derived_tier (derive : dict -> result dict) (source : value)
  : result (option dict) :=
  config <- py_copy source ;;
  if truthy config
  then c <- derive_on derive config ;; Ok (Some c)
  else Ok None.

(** Line 44, run when an [xxs] tier was produced: a new table with [xxs]
    in front of the entries of the old one. *)
Definition with_xxs (xxs : option dict) (table : dict) : dict :=
  match xxs with
  | Some c => dict_prepend "xxs" (VDict c) table
  | None => table
  end.

(** Line 62, run when an [xxl] tier was produced: a store under [xxl]. *)
Definition with_xxl (xxl : option dict) (table : dict) : dict :=
  match xxl with
  | Some c => dict_set "xxl" (VDict c) table
  | None => table
  end.

(** Lines 14-65 for one model: the table stored back under the model's
    key.  A model that is not a dictionary, or has no [xs] key, or has both
    [xxs] and [xxl], keeps its table. *)
Definition augment (model_config : value) : result value :=
  match model_config with
  | VDict table =>
      if dict_has "xs" table then
        if dict_has "xxs" table && dict_has "xxl" table then Ok model_config
        else
          let xs_config := dict_get "xs" (VDict []) table in
          let xl_config := dict_get "xl" (VDict []) table in
          xxs <- derived_tier derive_xxs xs_config ;;
          let table1 := with_xxs xxs table in
          xxl <- derived_tier derive_xxl xl_config ;;
          let table2 := with_xxl xxl table1 in
          Ok (VDict table2)
      else Ok model_config
  | _ => Ok model_config
  end.

(** ** The loop on a store of dictionary objects *)

(** The script rebinds entries of the registry and stores into tables, so
    the dictionaries it reaches by reference are kept as objects with an
    address: the tables of the models and the tiers of the tables.  The
    values of a tier's fields are never written to, they are plain values.
    An entry of the registry or of a table is a reference to an object, or
    a value that is not a dictionary. *)
Definition addr : Type := nat.

Inductive nondict : Type :=
| ONone
| OBool (b : bool)
| OInt (n : Z)
| OFloat (x : float)
| OStr (s : string)
| OList (items : list value).

Definition value_of_nondict (o : nondict) : value :=
  match o with
  | ONone => VNone
  | OBool b => VBool b
  | OInt n => VInt n
  | OFloat x => VFloat x
  | OStr s => VStr s
  | OList l => VList l
  end.

Inductive entry : Type :=
| Obj (a : addr)
| Imm (o : nondict).

Definition table : Type := list (string * entry).

(** [tiers] and [tables] hold the objects by address; [data] is the content
    of the dictionary [config_data["data"]], whose entries refer to tables.
    The function returns [config_data] itself (line 67): the caller reads
    the result from this same [data] object. *)
Record store : Type := mkStore {
  tiers : list dict;
  tables : list table;
  data : table
}.

Definition read_tier (s : store) (a : addr) : dict := nth a (tiers s) [].
Definition read_table (s : store) (a : addr) : table := nth a (tables s) [].

(** A new object takes the next free address. *)
Definition alloc_tier (d : dict) (s : store) : addr * store :=
  (List.length (tiers s), mkStore (tiers s ++ [d]) (tables s) (data s)).

Definition alloc_table (t : table) (s : store) : addr * store :=
  (List.length (tables s), mkStore (tiers s) (tables s ++ [t]) (data s)).

Fixpoint list_set {A : Type} (i : nat) (x : A) (l : list A) : list A :=
  match l, i with
  | [], _ => []
  | _ :: l', O => x :: l'
  | y :: l', S i' => y :: list_set i' x l'
  end.

(** In-place update of the table at [a]. *)
Definition write_table (a : addr) (t : table) (s : store) : store :=
  mkStore (tiers s) (list_set a t (tables s)) (data s).

(** In-place update of the registry. *)
Definition write_data (d : table) (s : store) : store :=
  mkStore (tiers s) (tables s) d.

(** What [model_config.get(key, {})] evaluates to, read at the time of its
    use: the tier referred to, the stored value, or an empty dictionary. *)
Definition load (s : store) (e : option entry) : value :=
  match e with
  | Some (Obj a) => VDict (read_tier s a)
  | Some (Imm o) => value_of_nondict o
  | None => VDict []
  end.

(** Lines 14-65 for the model stored under [model_hash].  [current] is the
    address the variable [model_config] refers to: the table of the model,
    then the new table when line 44 builds one.  Line 62 stores into the
    table [model_config] refers to at that point, line 65 rebinds the
    registry entry.  The references [xs_config] and [xl_config] are taken
    at lines 19-20 and followed when the copy is made. *)
Definition visit (model_hash : string) (s : store) : result store :=
  match dict_lookup model_hash (data s) with
  | Some (Obj t) =>
      let model_config := read_table s t in
      if dict_has "xs" model_config then
        if dict_has "xxs" model_config && dict_has "xxl" model_config then Ok s
        else
          let xs_config := dict_lookup "xs" model_config in
          let xl_config := dict_lookup "xl" model_config in
          xxs <- derived_tier derive_xxs (load s xs_config) ;;
          let (current, s1) :=
            match xxs with
            | Some c =>
                let (a, s') := alloc_tier c s in
                alloc_table (dict_prepend "xxs" (Obj a) model_config) s'
            | None => (t, s)
            end in
          xxl <- derived_tier derive_xxl (load s1 xl_config) ;;
          let s2 :=
            match xxl with
            | Some c =>
                let (a, s') := alloc_tier c s1 in
                write_table current
                  (dict_set "xxl" (Obj a) (read_table s' current)) s'
            | None => s1
            end in
          Ok (write_data (dict_set model_hash (Obj current) (data s2)) s2)
      else Ok s
  | _ => Ok s
  end.

(** Line 13 and line 67: the models are visited in the order of the
    registry, whose set of keys the loop never changes; the first exception
    ends the run. *)
Definition add_enhanced_tiers (s : store) : result store :=
  fold_left (fun acc model_hash => s' <- acc ;; visit model_hash s')
            (keys (data s)) (Ok s).

(** The value a store holds under an entry of a table, and under an entry
    of the registry. *)
Definition entry_value (s : store) (e : entry) : value := load s (Some e).

Definition table_value (s : store) (t : table) : dict :=
  map_values (entry_value s) t.

Definition model_value (s : store) (e : entry) : value :=
  match e with
  | Obj t => VDict (table_value s (read_table s t))
  | Imm o => value_of_nondict o
  end.

Definition registry_value (s : store) : dict :=
  map_values (model_value s) (data s).

End Derivation.

(** ** The data model of the specification *)

(** The fields the derivations compute with, typed as the data model types
    them: epochs, batch size and warm-up steps are integers, the two
    learning rates are floating-point numbers.  A field may be absent. *)
Definition is_int (v : value) : bool :=
  match v with VInt _ => true | _ => false end.

Definition is_float (v : value) : bool :=
  match v with VFloat _ => true | _ => false end.

Definition field_ok (p : value -> bool) (k : string) (d : dict) : bool :=
  match dict_lookup k d with
  | Some v => p v
  | None => true
  end.

Definition TierConfig_typed (d : dict) : bool :=
  field_ok is_int "max_train_epochs" d
  && field_ok is_int "train_batch_size" d
  && field_ok is_int "lr_warmup_steps" d
  && field_ok is_float "unet_lr" d
  && field_ok is_float "text_encoder_lr" d.

(** A table all of whose tiers are typed tier configurations. *)
Definition ConfigTable_typed (table : dict) : bool :=
  forallb (fun kv => match snd kv with
                     | VDict d => TierConfig_typed d
                     | _ => false
                     end) table.

(** ** Inputs of the worked examples *)

(** The closed examples need one rendering of doubles.  None of their
    inputs holds a double inside [optimizer_args], so they evaluate to the
    same results under every rendering; this one writes the digits of the
    mantissa and the binary exponent. *)
Definition sample_repr_float (x : float) : string :=
  match Prim2SF x with
  | S754_zero false => "0.0"
  | S754_zero true => "-0.0"
  | S754_infinity false => "inf"
  | S754_infinity true => "-inf"
  | S754_nan => "nan"
  | S754_finite sign m e =>
      ((if sign then "-" else "") ++ repr_int (Zpos m) ++ "p" ++ repr_int e)%string
  end.

(** The keys lines 25-41 store to, and those lines 49-59 store to. *)
Definition xxs_written_keys : list string :=
  ["max_train_epochs"; "train_batch_size"; "gradient_accumulation_steps";
   "unet_lr"; "text_encoder_lr"; "noise_offset"; "lr_scheduler";
   "max_data_loader_n_workers"; "optimizer_args"].

(** The eight fields lines 25-34 store to or scale. *)
Definition xxs_listed_keys : list string :=
  ["max_train_epochs"; "train_batch_size"; "gradient_accumulation_steps";
   "unet_lr"; "text_encoder_lr"; "noise_offset"; "lr_scheduler";
   "max_data_loader_n_workers"].

(** An [xs] tier whose [optimizer_args] do not mention [weight_decay]. *)
Definition xs_other_args : dict :=
  [("max_train_epochs", VInt 38);
   ("optimizer_args", VList [VStr "lr=0.1"])].

Definition xxl_written_keys : list string :=
  ["max_train_epochs"; "train_batch_size"; "gradient_accumulation_steps";
   "unet_lr"; "text_encoder_lr"; "noise_offset"; "lr_scheduler";
   "lr_warmup_steps"; "max_data_loader_n_workers"].

(** The [xs] tier of the specification's scenario and the [xxs] tier it
    states for it. *)
Definition scenario_xs : dict :=
  [("max_train_epochs", VInt 38);
   ("unet_lr", VFloat 0.0001%float);
   ("optimizer_args", VList [VStr "weight_decay=0.01"])].

Definition scenario_xxs : dict :=
  [("max_train_epochs", VInt 45);
   ("unet_lr", VFloat 8e-05%float);
   ("train_batch_size", VInt 2);
   ("gradient_accumulation_steps", VInt 4);
   ("noise_offset", VFloat 0.015%float);
   ("lr_scheduler", VStr "constant_with_warmup");
   ("max_data_loader_n_workers", VInt 2);
   ("optimizer_args",
    VList [VStr "betas=(0.9, 0.999)"; VStr "weight_decay=0.0002"; VStr "eps=1e-08"])].

(** The same tier with its keys in the order the derivation leaves them:
    the keys of [xs] first, then the new keys as they are stored. *)
Definition scenario_xxs_built : dict :=
  [("max_train_epochs", VInt 45);
   ("unet_lr", VFloat 8e-05%float);
   ("optimizer_args",
    VList [VStr "betas=(0.9, 0.999)"; VStr "weight_decay=0.0002"; VStr "eps=1e-08"]);
   ("train_batch_size", VInt 2);
   ("gradient_accumulation_steps", VInt 4);
   ("noise_offset", VFloat 0.015%float);
   ("lr_scheduler", VStr "constant_with_warmup");
   ("max_data_loader_n_workers", VInt 2)].

(** ** What a run leaves in place *)

(** A table whose [xs] tier yields an [xxs] tier (line 44 then builds a new
    table), or that has no [xs] key at all. *)
Definition rebuilt_or_skipped (s : store) (t : table) : Prop :=
  dict_has "xs" t = false \/ truthy (load s (dict_lookup "xs" t)) = true.

(** [s'] comes from [s] by allocations, by stores into tables that are not
    [rebuilt_or_skipped], and by rebinding registry entries to tables that
    are new or were already bound to the entry. *)
Definition frame (s s' : store) : Prop :=
  (exists more, tiers s' = tiers s ++ more) /\
  (List.length (tables s) <= List.length (tables s'))%nat /\
  (forall a t, nth_error (tables s) a = Some t -> rebuilt_or_skipped s t ->
               nth_error (tables s') a = Some t) /\
  keys (data s') = keys (data s) /\
  (forall k, dict_lookup k (data s') = dict_lookup k (data s) \/
             exists a, dict_lookup k (data s') = Some (Obj a) /\
                       (List.length (tables s) <= a)%nat).

(** The references of a store lead to objects of the store. *)
Definition refs_below (n : nat) (t : table) : Prop :=
  forall k a, In (k, Obj a) t -> (a < n)%nat.

Definition store_wf (s : store) : Prop :=
  Forall (refs_below (List.length (tiers s))) (tables s) /\
  refs_below (List.length (tables s)) (data s).

(** The stores of the examples: one model whose table has an [xs] tier, and
    one model whose [xs] tier is empty and whose [xl] tier is not. *)
Definition store_one_model : store :=
  mkStore [[("max_train_epochs", VInt 38)]]
          [[("xs", Obj 0%nat)]]
          [("m", Obj 0%nat)].

(** The first store after the run. *)
Definition store_one_model_after : store :=
  mkStore [[("max_train_epochs", VInt 38)];
           [("max_train_epochs", VInt 45); ("train_batch_size", VInt 2);
            ("gradient_accumulation_steps", VInt 4);
            ("noise_offset", VFloat 0.015%float);
            ("lr_scheduler", VStr "constant_with_warmup");
            ("max_data_loader_n_workers", VInt 2)]]
          [[("xs", Obj 0%nat)]; [("xxs", Obj 1%nat); ("xs", Obj 0%nat)]]
          [("m", Obj 1%nat)].

Definition store_empty_xs : store :=
  mkStore [[]; [("max_train_epochs", VInt 11)]]
          [[("xs", Obj 0%nat); ("xl", Obj 1%nat)]]
          [("m", Obj 0%nat)].

(** The keys of [d] are pairwise distinct, as a test. *)
Fixpoint distinct_keys (d : dict) : bool :=
  match d with
  | [] => true
  | (k, _) :: d' => negb (dict_has k d') && distinct_keys d'
  end.

(** The tables of the examples. *)
Definition sample_xl : dict :=
  [("unet_lr", VFloat 1e-4%float); ("train_batch_size", VInt 14)].

Definition table_full : dict :=
  [("xs", VDict scenario_xs); ("m", VDict []); ("xl", VDict sample_xl)].

Definition table_no_xs : dict :=
  [("xl", VDict [("max_train_epochs", VInt 11)])].

Definition table_empty_xs : dict :=
  [("xs", VDict []); ("xl", VDict [("max_train_epochs", VInt 11)])].

Definition table_no_xl : dict :=
  [("xs", VDict scenario_xs)].

Definition table_old_xxl : dict :=
  [("xxl", VDict [("max_train_epochs", VInt 99)]);
   ("xs", VDict scenario_xs); ("xl", VDict sample_xl)].

Definition table_old_xxs : dict :=
  [("m", VDict []); ("xxs", VDict [("max_train_epochs", VInt 99)]);
   ("xs", VDict scenario_xs); ("xl", VDict sample_xl)].

(** ** Kinds of values *)

(** The values that have a [copy] method: dictionaries and lists. *)
Definition has_copy (v : value) : bool :=
  match v with
  | VDict _ | VList _ => true
  | _ => false
  end.


(** [d'] comes from [d] by stores under keys of [ws]: the keys of [d] keep
    their positions, new keys follow and are among [ws], the fields under
    other keys are those of [d], and distinct keys stay distinct. *)
Definition grown_by (ws : list string) (d d' : dict) : Prop :=
  (exists extra, keys d' = keys d ++ extra /\ incl extra ws) /\
  (forall k, ~ In k ws -> dict_lookup k d' = dict_lookup k d) /\
  (dict_wf d -> dict_wf d').

(** [a >= k] and [a <= k] between a number and a small [int] literal. *)
Definition num_ge_int (a : num) (k : Z) : bool :=
  match a with
  | NInt n => k <=? n
  | NFloat x => (float_of_small k <=? x)%float
  end.

Definition num_le_int (a : num) (k : Z) : bool :=
  match a with
  | NInt n => n <=? k
  | NFloat x => (x <=? float_of_small k)%float
  end.

(** ** Stores as [json.load] builds them *)

(** The addresses of the tables a registry refers to. *)
Definition table_refs (d : table) : list addr :=
  flat_map (fun kv => match snd kv with Obj a => [a] | Imm _ => [] end) d.

(** A store whose references are allocated, whose registry has distinct
    keys, and in which no two models share a table. *)
Definition tree_shaped (s : store) : Prop :=
  store_wf s /\ dict_wf (data s) /\ NoDup (table_refs (data s)).

(** The tables of the models have distinct keys. *)
Definition tables_wf (s : store) : Prop :=
  forall k t, dict_lookup k (data s) = Some (Obj t) -> dict_wf (read_table s t).

(** Every model is a typed table. *)
Definition models_typed (s : store) : Prop :=
  forall k e, dict_lookup k (data s) = Some e ->
    exists table, model_value s e = VDict table /\ ConfigTable_typed table = true.

(** The same conditions as tests. *)
Definition refs_below_b (n : nat) (t : table) : bool :=
  forallb (fun kv => match snd kv with
                     | Obj a => (a <? n)%nat
                     | Imm _ => true
                     end) t.

Fixpoint distinct_strings (l : list string) : bool :=
  match l with
  | [] => true
  | x :: l' => negb (existsb (String.eqb x) l') && distinct_strings l'
  end.

Fixpoint distinct_addrs (l : list addr) : bool :=
  match l with
  | [] => true
  | x :: l' => negb (existsb (Nat.eqb x) l') && distinct_addrs l'
  end.

Definition tree_shaped_b (s : store) : bool :=
  forallb (refs_below_b (List.length (tiers s))) (tables s)
  && refs_below_b (List.length (tables s)) (data s)
  && distinct_strings (keys (data s))
  && distinct_addrs (table_refs (data s)).

Definition tables_wf_b (s : store) : bool :=
  forallb (fun t => distinct_strings (keys t)) (tables s).

Definition models_typed_b (s : store) : bool :=
  forallb (fun kv => match model_value s (snd kv) with
                     | VDict table => ConfigTable_typed table
                     | _ => false
                     end) (data s).

(** Further inputs of the examples: a table whose [xs] tier is a number, a
    tier whose epochs are a string, an [xl] tier that holds doubles, and a
    store whose only model has such an [xs] tier. *)
Definition table_scalar_xs : dict := [("xs", VInt 3); ("xl", VDict sample_xl)].

Definition xs_text_epochs : dict := [("max_train_epochs", VStr "many")].

Definition xl_doubles : dict :=
  [("max_train_epochs", VFloat 9.5%float); ("train_batch_size", VFloat 20.5%float);
   ("unet_lr", VFloat nan)].

Definition store_text_epochs : store :=
  mkStore [[("max_train_epochs", VInt 38)]; xs_text_epochs]
          [[("xs", Obj 0%nat)]; [("xs", Obj 1%nat)]]
          [("m", Obj 0%nat); ("n", Obj 1%nat)].

(** ** The characters of the searched word *)

(** The characters of [weight_decay]; [repr] writes each of them as
    itself, and writes any other character as itself or as an escape that
    starts with a backslash. *)
Definition word_char (c : ascii) : bool := has_char c "weight_decay".

Fixpoint all_word (s : string) : bool :=
  match s with
  | EmptyString => true
  | String c rest => word_char c && all_word rest
  end.

Definition repr_char_keeps_word (quote c : ascii) : bool :=
  if word_char c then String.eqb (repr_char quote c) (String c "")
  else match repr_char quote c with
       | String c0 t => negb (word_char c0) && negb (has_char "w"%char (String c0 t))
       | EmptyString => false
       end.

(** * Properties *)

(** ** Dictionaries *)

Section DictFacts.

Context {V : Type}.
Implicit Types (d acc : list (string * V)) (v w : V).

Lemma dict_has_lookup (k : string) d :
  dict_has k d = match dict_lookup k d with Some _ => true | None => false end.
Proof.
  induction d as [|[k' v'] d IH]; simpl; [reflexivity|].
  destruct (String.eqb k k'); [reflexivity|exact IH].
Qed.

Lemma dict_has_false_lookup (k : string) d :
  dict_has k d = false <-> dict_lookup k d = None.
Proof.
  rewrite dict_has_lookup. destruct (dict_lookup k d); split; congruence.
Qed.

Lemma dict_has_In (k : string) d :
  dict_has k d = true <-> In k (keys d).
Proof.
  induction d as [|[k' v'] d IH]; simpl.
  - split; [discriminate|tauto].
  - destruct (String.eqb_spec k k') as [->|Hne].
    + split; auto.
    + rewrite IH. split; [auto|]. intros [E|H]; [congruence|exact H].
Qed.

Lemma dict_lookup_set (k k' : string) v d :
  dict_lookup k (dict_set k' v d) =
  if String.eqb k k' then Some v else dict_lookup k d.
Proof.
  induction d as [|[k0 v0] d IH]; simpl.
  - reflexivity.
  - destruct (String.eqb_spec k' k0) as [->|Hne]; simpl.
    + destruct (String.eqb k k0); reflexivity.
    + destruct (String.eqb_spec k k0) as [->|Hne'].
      * destruct (String.eqb_spec k0 k'); [congruence|reflexivity].
      * exact IH.
Qed.

Lemma dict_has_set (k k' : string) v d :
  dict_has k (dict_set k' v d) = (String.eqb k k' || dict_has k d)%bool.
Proof.
  rewrite !dict_has_lookup, dict_lookup_set.
  destruct (String.eqb k k'); reflexivity.
Qed.

Lemma dict_set_absent (k : string) v d :
  dict_lookup k d = None -> dict_set k v d = d ++ [(k, v)].
Proof.
  induction d as [|[k0 v0] d IH]; simpl; [reflexivity|].
  destruct (String.eqb k k0); [discriminate|].
  intros H. rewrite (IH H). reflexivity.
Qed.

Lemma dict_set_set (k : string) v w d :
  dict_set k v (dict_set k w d) = dict_set k v d.
Proof.
  induction d as [|[k0 v0] d IH]; simpl.
  - rewrite String.eqb_refl. reflexivity.
  - destruct (String.eqb k k0) eqn:E; simpl; rewrite E; [reflexivity|].
    rewrite IH. reflexivity.
Qed.

Lemma keys_dict_set (k : string) v d :
  keys (dict_set k v d) = if dict_has k d then keys d else keys d ++ [k].
Proof.
  induction d as [|[k0 v0] d IH]; simpl; [reflexivity|].
  destruct (String.eqb k k0); simpl; [reflexivity|].
  rewrite IH. destruct (dict_has k d); reflexivity.
Qed.

Lemma dict_set_wf (k : string) v d :
  dict_wf d -> dict_wf (dict_set k v d).
Proof.
  unfold dict_wf. intros Hd. rewrite keys_dict_set.
  destruct (dict_has k d) eqn:E; [exact Hd|].
  apply NoDup_app; [exact Hd|repeat constructor; simpl; tauto|].
  intros x Hx [<-|[]]. apply dict_has_In in Hx. congruence.
Qed.

Lemma remove_key_lookup (k k' : string) d :
  dict_lookup k (remove_key k' d) =
  if String.eqb k k' then None else dict_lookup k d.
Proof.
  induction d as [|[k0 v0] d IH]; simpl.
  - destruct (String.eqb k k'); reflexivity.
  - destruct (String.eqb_spec k' k0) as [->|Hne]; simpl.
    + rewrite IH. destruct (String.eqb k k0); reflexivity.
    + rewrite IH. destruct (String.eqb_spec k k0) as [->|Hne'].
      * destruct (String.eqb_spec k0 k'); [congruence|reflexivity].
      * reflexivity.
Qed.

Lemma remove_key_absent (k : string) d :
  dict_lookup k d = None -> remove_key k d = d.
Proof.
  induction d as [|[k0 v0] d IH]; simpl; [reflexivity|].
  destruct (String.eqb k k0); [discriminate|]. simpl.
  intros H. rewrite (IH H). reflexivity.
Qed.

Lemma remove_key_set_other (k k' : string) v d :
  k <> k' -> remove_key k (dict_set k' v d) = dict_set k' v (remove_key k d).
Proof.
  intros Hne. induction d as [|[k0 v0] d IH]; simpl.
  - destruct (String.eqb_spec k k'); [congruence|reflexivity].
  - destruct (String.eqb_spec k' k0) as [->|Hne0]; simpl.
    + destruct (String.eqb_spec k k0); [congruence|]. simpl.
      rewrite String.eqb_refl. reflexivity.
    + destruct (String.eqb_spec k k0) as [->|Hne1]; simpl; [exact IH|].
      destruct (String.eqb_spec k' k0); [congruence|]. rewrite IH. reflexivity.
Qed.

Lemma remove_key_set_same (k : string) v d :
  remove_key k (dict_set k v d) = remove_key k d.
Proof.
  induction d as [|[k0 v0] d IH]; simpl.
  - rewrite String.eqb_refl. reflexivity.
  - destruct (String.eqb k k0) eqn:E; simpl; rewrite E; simpl; [reflexivity|].
    rewrite IH. reflexivity.
Qed.

Lemma remove_key_comm (k k' : string) d :
  remove_key k (remove_key k' d) = remove_key k' (remove_key k d).
Proof.
  induction d as [|[k0 v0] d IH]; simpl; [reflexivity|].
  destruct (String.eqb k' k0) eqn:E'; destruct (String.eqb k k0) eqn:E;
    simpl; rewrite ?E, ?E'; simpl; rewrite IH; reflexivity.
Qed.

(** The display [{k: v, **d}] of a well-formed [d]: the key [k] comes
    first, with the value [d] gives it when [d] has the key, and the other
    entries of [d] follow in their order. *)
Lemma dict_update_wf (k : string) v acc d :
  dict_wf d ->
  dict_lookup k acc = None ->
  (forall x, In x (keys d) -> dict_lookup x acc = None) ->
  dict_update ((k, v) :: acc) d =
  (k, dict_get k v d) :: acc ++ remove_key k d.
Proof.
  unfold dict_update, dict_wf.
  revert v acc. induction d as [|[k0 v0] d IH]; intros v acc Hwf Hk Hdis.
  - simpl. rewrite app_nil_r. reflexivity.
  - simpl in Hwf. inversion Hwf as [|? ? Hnot Hwf']; subst.
    cbn [fold_left fst snd dict_set]. unfold dict_get. cbn [dict_lookup remove_key filter fst].
    destruct (String.eqb_spec k k0) as [->|Hne].
    + rewrite String.eqb_refl. cbn [negb].
      rewrite IH; auto.
      * assert (Hn : dict_lookup k0 d = None).
        { apply dict_has_false_lookup. destruct (dict_has k0 d) eqn:E; [|reflexivity].
          apply dict_has_In in E. contradiction. }
        unfold dict_get. rewrite Hn. fold (remove_key k0 d).
        rewrite (remove_key_absent _ _ Hn). reflexivity.
      * intros x Hx. apply Hdis. simpl. auto.
    + destruct (String.eqb_spec k0 k) as [E|_]; [congruence|]. cbn [negb].
      rewrite (dict_set_absent k0 v0 acc) by (apply Hdis; simpl; auto).
      rewrite IH; auto.
      * fold (remove_key k d). unfold dict_get.
        rewrite <- app_assoc. reflexivity.
      * clear - Hk Hne. induction acc as [|[a b] acc IHa]; simpl in *.
        -- destruct (String.eqb_spec k k0); [congruence|reflexivity].
        -- destruct (String.eqb k a); [discriminate|auto].
      * intros x Hx.
        assert (Hxk : x <> k0) by (intros ->; contradiction).
        assert (Hacc : dict_lookup x acc = None) by (apply Hdis; simpl; auto).
        clear - Hxk Hacc. induction acc as [|[a b] acc IHa]; simpl in *.
        -- destruct (String.eqb_spec x k0); [congruence|reflexivity].
        -- destruct (String.eqb x a); [discriminate|auto].
Qed.

Lemma dict_prepend_wf (k : string) v d :
  dict_wf d ->
  dict_prepend k v d = (k, dict_get k v d) :: remove_key k d.
Proof.
  intros Hwf. unfold dict_prepend.
  rewrite (dict_update_wf k v [] d Hwf); auto.
Qed.

End DictFacts.

(** ** The derivations, field by field *)

(** Comparison of two string literals, by computation. *)
Ltac eqb_literals :=
  repeat match goal with
  | |- context [String.eqb ?a ?b] =>
      let r := eval vm_compute in (String.eqb a b) in
      match r with
      | true => change (String.eqb a b) with true
      | false => change (String.eqb a b) with false
      end
  end; cbv iota.

(** A field read through the stores made so far. *)
Ltac read_back := rewrite ?dict_lookup_set; eqb_literals.

(** Lookup of an arbitrary key in a dictionary built by stores under
    literal keys: one case per literal. *)
Ltac by_key k :=
  rewrite ?dict_lookup_set;
  repeat match goal with
  | |- context [String.eqb k ?a] =>
      destruct (String.eqb_spec k a);
      [subst k; eqb_literals; try congruence; try reflexivity|]
  end; try congruence; try reflexivity.

Lemma typed_fields (d : dict) :
  TierConfig_typed d = true ->
  field_ok is_int "max_train_epochs" d = true /\
  field_ok is_int "train_batch_size" d = true /\
  field_ok is_int "lr_warmup_steps" d = true /\
  field_ok is_float "unet_lr" d = true /\
  field_ok is_float "text_encoder_lr" d = true.
Proof.
  unfold TierConfig_typed. intros H.
  repeat (apply andb_prop in H as [H ?]). auto.
Qed.

Lemma int_field_get (k : string) (default : Z) (d : dict) :
  field_ok is_int k d = true ->
  exists n, dict_get k (VInt default) d = VInt n.
Proof.
  unfold field_ok, dict_get. destruct (dict_lookup k d) as [[]|]; try discriminate.
  - intros _. eexists; reflexivity.
  - intros _. eexists; reflexivity.
Qed.

Lemma float_field_cases (k : string) (d : dict) :
  field_ok is_float k d = true ->
  (exists u, dict_lookup k d = Some (VFloat u)) \/ dict_lookup k d = None.
Proof.
  unfold field_ok. destruct (dict_lookup k d) as [[]|]; try discriminate; eauto.
Qed.

(** The fields of the derived [xxl] tier, for a typed [xl] tier: the
    derivation returns, and a lookup in its result is decided by the key. *)
Lemma derive_xxl_lookup (xl : dict) :
  TierConfig_typed xl = true ->
  exists xxl epochs batch warmup,
    derive_xxl xl = Ok xxl /\
    dict_get "max_train_epochs" (VInt 11) xl = VInt epochs /\
    dict_get "train_batch_size" (VInt 12) xl = VInt batch /\
    dict_get "lr_warmup_steps" (VInt 120) xl = VInt warmup /\
    forall k,
      dict_lookup k xxl =
      if String.eqb k "max_data_loader_n_workers" then Some (VInt 8)
      else if String.eqb k "lr_warmup_steps" then Some (VInt (warmup + 30))
      else if String.eqb k "lr_scheduler" then Some (VStr "cosine")
      else if String.eqb k "noise_offset" then Some (VFloat 0.045%float)
      else if String.eqb k "text_encoder_lr" then
        match dict_lookup "text_encoder_lr" xl with
        | Some (VFloat u) =>
            Some (VFloat (py_min_float 2.5e-06%float (u * 1.15)%float))
        | _ => None
        end
      else if String.eqb k "unet_lr" then
        match dict_lookup "unet_lr" xl with
        | Some (VFloat u) =>
            Some (VFloat (py_min_float 5e-05%float (u * 1.15)%float))
        | _ => None
        end
      else if String.eqb k "gradient_accumulation_steps" then Some (VInt 1)
      else if String.eqb k "train_batch_size" then Some (VInt (Z.min 16 (batch + 4)))
      else if String.eqb k "max_train_epochs" then Some (VInt (Z.max 8 (epochs - 3)))
      else dict_lookup k xl.
Proof.
  intros Ht. apply typed_fields in Ht as (He & Hb & Hw & Hu & Hte).
  destruct (int_field_get _ 11 _ He) as [epochs Ee].
  destruct (int_field_get _ 12 _ Hb) as [batch Eb].
  destruct (int_field_get _ 120 _ Hw) as [warmup Ew].
  assert (Emax : py_max_int 8 (NInt (epochs - 3)) = NInt (Z.max 8 (epochs - 3))).
  { unfold py_max_int. destruct (Z.ltb_spec 8 (epochs - 3)); f_equal; lia. }
  assert (Emin : py_min_int 16 (NInt (batch + 4)) = NInt (Z.min 16 (batch + 4))).
  { unfold py_min_int. destruct (Z.ltb_spec (batch + 4) 16); f_equal; lia. }
  unfold derive_xxl. rewrite Ee. cbn [py_sub_int bind]. rewrite Emax.
  unfold dict_get in *. read_back. unfold dict_get in Eb. rewrite Eb.
  cbn [py_add_int bind of_num]. rewrite Emin. cbn [of_num].
  unfold scale_and_cap_if_present. read_back.
  destruct (float_field_cases _ _ Hu) as [[u Eu]|Eu];
    destruct (float_field_cases _ _ Hte) as [[te Ete]|Ete];
    rewrite Eu; cbn [py_mul_float bind]; read_back;
    rewrite Ete; cbn [py_mul_float bind]; read_back;
    rewrite Ew; cbn [py_add_int bind of_num];
    eexists _, epochs, batch, warmup;
    (split; [reflexivity|]); repeat (split; [reflexivity|]);
    intros k; by_key k.
Qed.

Section DeriveXXS.

Variable repr_float : float -> string.

(** The stores of lines 25-34 leave [optimizer_args] alone, so the test of
    line 35 reads the list of the [xs] tier. *)
Lemma mentions_weight_decay_set (k : string) (v : value) (c : dict) :
  k <> "optimizer_args" ->
  mentions_weight_decay repr_float (dict_set k v c) =
  mentions_weight_decay repr_float c.
Proof.
  intros Hne. unfold mentions_weight_decay, dict_get.
  rewrite dict_lookup_set.
  destruct (String.eqb_spec "optimizer_args" k); [congruence|reflexivity].
Qed.

(** The fields of the derived [xxs] tier, for a typed [xs] tier. *)
Lemma derive_xxs_lookup (xs : dict) :
  TierConfig_typed xs = true ->
  exists xxs epochs,
    derive_xxs repr_float xs = Ok xxs /\
    dict_get "max_train_epochs" (VInt 38) xs = VInt epochs /\
    forall k,
      dict_lookup k xxs =
      if String.eqb k "optimizer_args" then
        if mentions_weight_decay repr_float xs
        then Some xxs_optimizer_args
        else dict_lookup "optimizer_args" xs
      else if String.eqb k "max_data_loader_n_workers" then Some (VInt 2)
      else if String.eqb k "lr_scheduler" then Some (VStr "constant_with_warmup")
      else if String.eqb k "noise_offset" then Some (VFloat 0.015%float)
      else if String.eqb k "text_encoder_lr" then
        match dict_lookup "text_encoder_lr" xs with
        | Some (VFloat u) => Some (VFloat (u * 0.8)%float)
        | _ => None
        end
      else if String.eqb k "unet_lr" then
        match dict_lookup "unet_lr" xs with
        | Some (VFloat u) => Some (VFloat (u * 0.8)%float)
        | _ => None
        end
      else if String.eqb k "gradient_accumulation_steps" then Some (VInt 4)
      else if String.eqb k "train_batch_size" then Some (VInt 2)
      else if String.eqb k "max_train_epochs" then Some (VInt (epochs + 7))
      else dict_lookup k xs.
Proof.
  intros Ht. apply typed_fields in Ht as (He & _ & _ & Hu & Hte).
  destruct (int_field_get _ 38 _ He) as [epochs Ee].
  unfold derive_xxs. rewrite Ee. cbn [py_add_int bind of_num].
  unfold scale_if_present. read_back.
  destruct (float_field_cases _ _ Hu) as [[u Eu]|Eu];
    destruct (float_field_cases _ _ Hte) as [[te Ete]|Ete];
    rewrite Eu; cbn [py_mul_float bind]; read_back;
    rewrite Ete; cbn [py_mul_float bind]; read_back;
    rewrite !mentions_weight_decay_set by discriminate;
    eexists _, epochs;
    (split; [reflexivity|]); (split; [reflexivity|]);
    intros k; destruct (mentions_weight_decay repr_float xs); by_key k.
Qed.

End DeriveXXS.

(** ** The [xxl] derivation *)

(** C7.  For a typed [xl] tier the derivation returns, and in the derived
    [xxl] tier [max_train_epochs] is [max(8, e - 3)] for the epochs [e] of
    [xl] (11 when absent), [train_batch_size] is [min(16, b + 4)] for its
    batch size [b] (12 when absent), [gradient_accumulation_steps] is 1,
    [noise_offset] is 0.045, [lr_scheduler] is [cosine], [lr_warmup_steps]
    is [w + 30] for its warm-up steps [w] (120 when absent),
    [max_data_loader_n_workers] is 8, and every field the derivation does
    not store to is the field of [xl]. *)
Theorem derive_xxl_overrides :
  forall xl : dict,
    TierConfig_typed xl = true ->
    exists xxl epochs batch warmup,
      derive_xxl xl = Ok xxl /\
      dict_get "max_train_epochs" (VInt 11) xl = VInt epochs /\
      dict_get "train_batch_size" (VInt 12) xl = VInt batch /\
      dict_get "lr_warmup_steps" (VInt 120) xl = VInt warmup /\
      dict_lookup "max_train_epochs" xxl = Some (VInt (Z.max 8 (epochs - 3))) /\
      dict_lookup "train_batch_size" xxl = Some (VInt (Z.min 16 (batch + 4))) /\
      dict_lookup "gradient_accumulation_steps" xxl = Some (VInt 1) /\
      dict_lookup "noise_offset" xxl = Some (VFloat 0.045%float) /\
      dict_lookup "lr_scheduler" xxl = Some (VStr "cosine") /\
      dict_lookup "lr_warmup_steps" xxl = Some (VInt (warmup + 30)) /\
      dict_lookup "max_data_loader_n_workers" xxl = Some (VInt 8) /\
      forall k, ~ In k xxl_written_keys -> dict_lookup k xxl = dict_lookup k xl.
Proof.
  intros xl Ht.
  destruct (derive_xxl_lookup xl Ht) as (xxl & e & b & w & Hr & He & Hb & Hw & Hk).
  exists xxl, e, b, w.
  repeat (split; [first [assumption | rewrite Hk; reflexivity]|]).
  intros k Hnot. rewrite Hk.
  repeat match goal with
  | |- context [String.eqb k ?a] =>
      destruct (String.eqb_spec k a);
      [exfalso; apply Hnot; subst k; simpl; tauto|]
  end.
  reflexivity.
Qed.

(** C6, as the code has it.  For a typed [xl] tier, a learning rate [u]
    present in [xl] becomes [min(ceiling, u * 1.15)] computed on doubles,
    with ceiling 5e-05 for [unet_lr] and 2.5e-06 for [text_encoder_lr], and
    a rate absent from [xl] is absent from [xxl].  The rate 1e-4 gives the
    ceiling 5e-05; the rate 1e-6 gives the product of the two doubles,
    which is 1.1499999999999998e-06. *)
Theorem derive_xxl_learning_rates :
  (forall xl : dict,
     TierConfig_typed xl = true ->
     exists xxl,
       derive_xxl xl = Ok xxl /\
       (forall u, dict_lookup "unet_lr" xl = Some (VFloat u) ->
          dict_lookup "unet_lr" xxl =
          Some (VFloat (py_min_float 5e-05%float (u * 1.15)%float))) /\
       (dict_lookup "unet_lr" xl = None -> dict_lookup "unet_lr" xxl = None) /\
       (forall u, dict_lookup "text_encoder_lr" xl = Some (VFloat u) ->
          dict_lookup "text_encoder_lr" xxl =
          Some (VFloat (py_min_float 2.5e-06%float (u * 1.15)%float))) /\
       (dict_lookup "text_encoder_lr" xl = None ->
          dict_lookup "text_encoder_lr" xxl = None)) /\
  py_min_float 5e-05%float (1e-4 * 1.15)%float = 5e-05%float /\
  py_min_float 5e-05%float (1e-6 * 1.15)%float = 1.1499999999999998e-06%float.
Proof.
  split; [|split; reflexivity].
  intros xl Ht.
  destruct (derive_xxl_lookup xl Ht) as (xxl & e & b & w & Hr & _ & _ & _ & Hk).
  exists xxl. split; [exact Hr|].
  repeat split.
  - intros u Hu. rewrite Hk, Hu. reflexivity.
  - intros Hu. rewrite Hk, Hu. reflexivity.
  - intros u Hu. rewrite Hk, Hu. reflexivity.
  - intros Hu. rewrite Hk, Hu. reflexivity.
Qed.

Section Claims.

Variable repr_float : float -> string.

(** ** The [xxs] derivation *)

(** C5.  For a typed [xs] tier the derivation returns, and in the derived
    [xxs] tier [max_train_epochs] is [e + 7] for the epochs [e] of [xs] (38
    when absent), [train_batch_size] is 2, [gradient_accumulation_steps] is
    4, a learning rate present in [xs] is multiplied by 0.8 and one absent
    stays absent, [noise_offset] is 0.015, [lr_scheduler] is
    [constant_with_warmup], [max_data_loader_n_workers] is 2;
    [optimizer_args] is the fixed list of three strings when the text [str]
    makes of the [optimizer_args] of [xs] contains [weight_decay], and is
    what [xs] has otherwise (absent when [xs] has none); and every other
    field is the field of [xs].  On the [xs] tier of the specification's
    scenario the derived tier has the fields the specification states: the
    same keys with the same values (the dictionary is built with its keys
    in another order).  On a tier whose arguments are [lr=0.1] the
    arguments are kept. *)
Theorem derive_xxs_overrides :
  (forall xs : dict,
     TierConfig_typed xs = true ->
     exists xxs epochs,
       derive_xxs repr_float xs = Ok xxs /\
       dict_get "max_train_epochs" (VInt 38) xs = VInt epochs /\
       dict_lookup "max_train_epochs" xxs = Some (VInt (epochs + 7)) /\
       dict_lookup "train_batch_size" xxs = Some (VInt 2) /\
       dict_lookup "gradient_accumulation_steps" xxs = Some (VInt 4) /\
       (forall u, dict_lookup "unet_lr" xs = Some (VFloat u) ->
          dict_lookup "unet_lr" xxs = Some (VFloat (u * 0.8)%float)) /\
       (dict_lookup "unet_lr" xs = None -> dict_lookup "unet_lr" xxs = None) /\
       (forall u, dict_lookup "text_encoder_lr" xs = Some (VFloat u) ->
          dict_lookup "text_encoder_lr" xxs = Some (VFloat (u * 0.8)%float)) /\
       (dict_lookup "text_encoder_lr" xs = None ->
          dict_lookup "text_encoder_lr" xxs = None) /\
       dict_lookup "noise_offset" xxs = Some (VFloat 0.015%float) /\
       dict_lookup "lr_scheduler" xxs = Some (VStr "constant_with_warmup") /\
       dict_lookup "max_data_loader_n_workers" xxs = Some (VInt 2) /\
       dict_lookup "optimizer_args" xxs =
         (if contains "weight_decay"
               (py_str repr_float (dict_get "optimizer_args" (VList []) xs))
          then Some (VList [VStr "betas=(0.9, 0.999)";
                            VStr "weight_decay=0.0002"; VStr "eps=1e-08"])
          else dict_lookup "optimizer_args" xs) /\
       forall k, ~ In k xxs_listed_keys -> k <> "optimizer_args" ->
                 dict_lookup k xxs = dict_lookup k xs) /\
  (derive_xxs repr_float scenario_xs = Ok scenario_xxs_built /\
   List.length scenario_xxs_built = List.length scenario_xxs /\
   forall k, dict_lookup k scenario_xxs_built = dict_lookup k scenario_xxs) /\
  (exists xxs,
     derive_xxs repr_float xs_other_args = Ok xxs /\
     dict_lookup "optimizer_args" xxs = Some (VList [VStr "lr=0.1"])).
Proof.
  split; [|split].
  - intros xs Ht.
    destruct (derive_xxs_lookup repr_float xs Ht) as (xxs & e & Hr & He & Hk).
    exists xxs, e.
    do 5 (split; [first [assumption | rewrite Hk; reflexivity]|]).
    split; [intros u Hu; rewrite Hk, Hu; reflexivity|].
    split; [intros Hu; rewrite Hk, Hu; reflexivity|].
    split; [intros u Hu; rewrite Hk, Hu; reflexivity|].
    split; [intros Hu; rewrite Hk, Hu; reflexivity|].
    do 3 (split; [rewrite Hk; reflexivity|]).
    split; [rewrite Hk; reflexivity|].
    intros k Hnot Hargs. rewrite Hk.
    destruct (String.eqb_spec k "optimizer_args"); [contradiction|].
    repeat match goal with
    | |- context [String.eqb k ?a] =>
        destruct (String.eqb_spec k a);
        [exfalso; apply Hnot; subst k; simpl; tauto|]
    end.
    reflexivity.
  - split; [vm_compute; reflexivity|]. split; [reflexivity|].
    intros k. cbn [dict_lookup scenario_xxs scenario_xxs_built].
    repeat match goal with
    | |- context [String.eqb k ?a] =>
        destruct (String.eqb_spec k a); [subst k; reflexivity|]
    end.
    reflexivity.
  - destruct (derive_xxs_lookup repr_float xs_other_args eq_refl)
      as (xxs & e & Hr & _ & Hk).
    exists xxs. split; [exact Hr|]. rewrite Hk. reflexivity.
Qed.

(** C8.  Whenever the [xxs] derivation returns, the [optimizer_args] of its
    result is the fixed list of three strings if the string [str] makes of
    the [optimizer_args] of [xs] (of the empty list when [xs] has none)
    contains [weight_decay], and is what [xs] has otherwise; the derivation
    returns for every typed [xs].  The test is a search in the rendered
    text: the word triggers the replacement wherever it occurs, inside a
    longer word, as the value of another key, or in a value that is not a
    list, and a list of arguments that spells the key differently does
    not. *)
Theorem xxs_optimizer_args_rule :
  (forall xs xxs : dict,
     derive_xxs repr_float xs = Ok xxs ->
     dict_lookup "optimizer_args" xxs =
     if contains "weight_decay"
          (py_str repr_float (dict_get "optimizer_args" (VList []) xs))
     then Some (VList [VStr "betas=(0.9, 0.999)"; VStr "weight_decay=0.0002";
                       VStr "eps=1e-08"])
     else dict_lookup "optimizer_args" xs) /\
  (forall xs : dict,
     TierConfig_typed xs = true -> exists xxs, derive_xxs repr_float xs = Ok xxs) /\
  mentions_weight_decay repr_float
    [("optimizer_args", VList [VStr "lr=0.1"; VStr "no_weight_decay_here=1"])] = true /\
  mentions_weight_decay repr_float
    [("optimizer_args", VList [VStr "comment=weight_decay"])] = true /\
  mentions_weight_decay repr_float [("optimizer_args", VStr "weight_decay")] = true /\
  mentions_weight_decay repr_float
    [("optimizer_args", VList [VStr "weight-decay=0.01"])] = false /\
  mentions_weight_decay repr_float [("unet_lr", VFloat 0.0001%float)] = false.
Proof.
  split; [|split; [|repeat split; reflexivity]].
  - intros xs xxs. unfold derive_xxs, scale_if_present.
    destruct (py_add_int _ 7) as [e|]; [|discriminate]. cbn [bind].
    read_back.
    destruct (dict_lookup "unet_lr" xs) as [u|];
      [destruct (py_mul_float u _); [|discriminate]|];
      cbn [bind]; read_back;
      (destruct (dict_lookup "text_encoder_lr" xs) as [te|];
       [destruct (py_mul_float te _); [|discriminate]|]);
      cbn [bind]; rewrite !mentions_weight_decay_set by discriminate;
      unfold mentions_weight_decay;
      intros H; injection H as <-;
      destruct (contains _ _); read_back; reflexivity.
  - intros xs Ht.
    destruct (derive_xxs_lookup repr_float xs Ht) as (xxs & e & Hr & _).
    exists xxs. exact Hr.
Qed.

End Claims.

(** ** Tables *)

Section TableFacts.

Context {V : Type}.
Implicit Types (d : list (string * V)) (v : V).

Lemma keys_remove_key (k : string) d :
  keys (remove_key k d) = filter (fun x => negb (String.eqb k x)) (keys d).
Proof.
  induction d as [|[k0 v0] d IH]; simpl; [reflexivity|].
  destruct (String.eqb k k0); simpl; rewrite IH; reflexivity.
Qed.

Lemma remove_key_wf (k : string) d : dict_wf d -> dict_wf (remove_key k d).
Proof.
  unfold dict_wf. rewrite keys_remove_key. apply NoDup_filter.
Qed.

Lemma remove_key_same (k : string) d : dict_lookup k (remove_key k d) = None.
Proof. rewrite remove_key_lookup, String.eqb_refl. reflexivity. Qed.

Lemma remove_key_idem (k : string) d :
  remove_key k (remove_key k d) = remove_key k d.
Proof. apply remove_key_absent, remove_key_same. Qed.

Lemma cons_wf (k : string) v d :
  dict_lookup k d = None -> dict_wf d -> dict_wf ((k, v) :: d).
Proof.
  intros Hk Hd. unfold dict_wf. simpl. constructor; [|exact Hd].
  intros Hin. apply dict_has_In in Hin.
  apply dict_has_false_lookup in Hk. congruence.
Qed.

Lemma dict_prepend_is_wf (k : string) v d :
  dict_wf d -> dict_wf (dict_prepend k v d).
Proof.
  intros Hd. rewrite dict_prepend_wf by exact Hd.
  apply cons_wf; [apply remove_key_same|apply remove_key_wf, Hd].
Qed.

Lemma dict_prepend_lookup (k k' : string) v d :
  dict_wf d ->
  dict_lookup k' (dict_prepend k v d) =
  if String.eqb k' k then Some (dict_get k v d) else dict_lookup k' d.
Proof.
  intros Hd. rewrite dict_prepend_wf by exact Hd. simpl.
  rewrite remove_key_lookup. destruct (String.eqb k' k); reflexivity.
Qed.

Lemma dict_has_update (k : string) (acc d : list (string * V)) :
  dict_has k (dict_update acc d) = (dict_has k acc || dict_has k d)%bool.
Proof.
  unfold dict_update. revert acc.
  induction d as [|[k0 v0] d IH]; intros acc; simpl.
  - rewrite orb_false_r. reflexivity.
  - rewrite IH, dict_has_set. simpl.
    destruct (String.eqb k k0), (dict_has k acc); reflexivity.
Qed.

Lemma dict_has_prepend (k k' : string) v d :
  dict_has k' (dict_prepend k v d) = (String.eqb k' k || dict_has k' d)%bool.
Proof.
  unfold dict_prepend. rewrite dict_has_update. simpl.
  destruct (String.eqb k' k); reflexivity.
Qed.

End TableFacts.

(** The entries of an augmented table, for the tiers [xxs] and [xxl]
    produced or not. *)
Lemma with_xxs_wf (xxs : option dict) (table : dict) :
  dict_wf table -> dict_wf (with_xxs xxs table).
Proof.
  destruct xxs; simpl; [apply dict_prepend_is_wf|auto].
Qed.

Lemma with_xxl_wf (xxl : option dict) (table : dict) :
  dict_wf table -> dict_wf (with_xxl xxl table).
Proof.
  destruct xxl; simpl; [apply dict_set_wf|auto].
Qed.

Lemma with_xxs_lookup (xxs : option dict) (table : dict) (k : string) :
  dict_wf table ->
  dict_lookup k (with_xxs xxs table) =
  match xxs with
  | Some c => if String.eqb k "xxs"
              then Some (dict_get "xxs" (VDict c) table)
              else dict_lookup k table
  | None => dict_lookup k table
  end.
Proof.
  intros Hwf. destruct xxs; simpl; [|reflexivity].
  apply dict_prepend_lookup, Hwf.
Qed.

Lemma with_xxl_lookup (xxl : option dict) (table : dict) (k : string) :
  dict_lookup k (with_xxl xxl table) =
  match xxl with
  | Some c => if String.eqb k "xxl" then Some (VDict c) else dict_lookup k table
  | None => dict_lookup k table
  end.
Proof.
  destruct xxl; simpl; [|reflexivity]. apply dict_lookup_set.
Qed.

Lemma augmented_lookup (xxs xxl : option dict) (table : dict) (k : string) :
  dict_wf table ->
  k <> "xxs" -> k <> "xxl" ->
  dict_lookup k (with_xxl xxl (with_xxs xxs table)) = dict_lookup k table.
Proof.
  intros Hwf H1 H2. rewrite with_xxl_lookup, with_xxs_lookup by exact Hwf.
  apply String.eqb_neq in H1, H2.
  destruct xxl, xxs; rewrite ?H1, ?H2; reflexivity.
Qed.

Lemma augmented_has (xxs xxl : option dict) (table : dict) (k : string) :
  k <> "xxs" -> k <> "xxl" ->
  dict_has k (with_xxl xxl (with_xxs xxs table)) = dict_has k table.
Proof.
  intros H1 H2. apply String.eqb_neq in H1, H2.
  destruct xxl, xxs; simpl;
    rewrite ?dict_has_set, ?dict_has_prepend, ?H1, ?H2; reflexivity.
Qed.

Lemma augmented_others (xxs xxl : option dict) (table : dict) :
  dict_wf table ->
  remove_key "xxs" (remove_key "xxl" (with_xxl xxl (with_xxs xxs table))) =
  remove_key "xxs" (remove_key "xxl" table).
Proof.
  intros Hwf.
  assert (H1 : remove_key "xxl" (with_xxl xxl (with_xxs xxs table)) =
               remove_key "xxl" (with_xxs xxs table)).
  { destruct xxl; simpl; [apply remove_key_set_same|reflexivity]. }
  rewrite H1, remove_key_comm, (remove_key_comm "xxs" "xxl" table).
  f_equal. destruct xxs; simpl; [|reflexivity].
  rewrite dict_prepend_wf by exact Hwf. simpl. apply remove_key_idem.
Qed.

(** ** The loop body *)

Section AugmentFacts.

Variable repr_float : float -> string.

Lemma augment_without_xs (table : dict) :
  dict_has "xs" table = false ->
  augment repr_float (VDict table) = Ok (VDict table).
Proof. intros H. simpl. rewrite H. reflexivity. Qed.

Lemma augment_with_both (table : dict) :
  dict_has "xxs" table = true -> dict_has "xxl" table = true ->
  augment repr_float (VDict table) = Ok (VDict table).
Proof.
  intros H1 H2. simpl. rewrite H1, H2.
  destruct (dict_has "xs" table); reflexivity.
Qed.

(** The derivation path: [xs] is there and one of [xxs], [xxl] is not. *)
Lemma augment_runs (table : dict) :
  dict_has "xs" table = true ->
  (dict_has "xxs" table && dict_has "xxl" table)%bool = false ->
  augment repr_float (VDict table) =
  (xxs <- derived_tier (derive_xxs repr_float) (dict_get "xs" (VDict []) table) ;;
   xxl <- derived_tier derive_xxl (dict_get "xl" (VDict []) table) ;;
   Ok (VDict (with_xxl xxl (with_xxs xxs table)))).
Proof. intros H1 H2. simpl. rewrite H1, H2. reflexivity. Qed.

Lemma augmented_get (xxs xxl : option dict) (table : dict) (k : string) (v : value) :
  dict_wf table ->
  k <> "xxs" -> k <> "xxl" ->
  dict_get k v (with_xxl xxl (with_xxs xxs table)) = dict_get k v table.
Proof.
  intros Hwf H1 H2. unfold dict_get.
  rewrite augmented_lookup by assumption. reflexivity.
Qed.

(** Storing the produced tiers a second time changes nothing, once the
    table does not hold both keys. *)
Lemma augmented_again (xxs xxl : option dict) (table : dict) :
  dict_wf table ->
  let table2 := with_xxl xxl (with_xxs xxs table) in
  (dict_has "xxs" table2 && dict_has "xxl" table2)%bool = false ->
  with_xxl xxl (with_xxs xxs table2) = table2.
Proof.
  intros Hwf table2 Hnot. subst table2.
  destruct xxs as [x|].
  - (* the table starts with xxs; it cannot hold xxl *)
    assert (Hx : dict_has "xxs" (with_xxl xxl (with_xxs (Some x) table)) = true).
    { destruct xxl; simpl; rewrite ?dict_has_set, dict_has_prepend;
        rewrite ?orb_true_r; reflexivity. }
    rewrite Hx in Hnot. simpl in Hnot.
    destruct xxl as [l|].
    + simpl in Hnot. rewrite dict_has_set in Hnot. discriminate.
    + cbn [with_xxl with_xxs] in *.
      rewrite (dict_prepend_wf "xxs" (VDict x) table Hwf).
      rewrite dict_prepend_wf
        by (apply cons_wf; [apply remove_key_same|apply remove_key_wf, Hwf]).
      unfold dict_get at 1. cbn [dict_lookup remove_key filter fst].
      rewrite String.eqb_refl. cbn [negb].
      fold (remove_key "xxs" (remove_key "xxs" table)).
      rewrite remove_key_idem. reflexivity.
  - cbn [with_xxs]. destruct xxl as [l|]; simpl; [|reflexivity].
    apply dict_set_set.
Qed.

(** C3.  Applying the loop body to its own result returns that result, for
    every table with pairwise distinct keys; when the first application
    raises, so does the composition.  A table that holds both [xxs] and
    [xxl] is returned as it is. *)
Theorem augment_idempotent :
  (forall table : dict,
     dict_wf table ->
     (T <- augment repr_float (VDict table) ;; augment repr_float T) =
     augment repr_float (VDict table)) /\
  (forall table : dict,
     dict_has "xxs" table = true -> dict_has "xxl" table = true ->
     augment repr_float (VDict table) = Ok (VDict table)).
Proof.
  split; [|exact augment_with_both].
  intros table Hwf.
  destruct (dict_has "xs" table) eqn:Hxs.
  2:{ rewrite augment_without_xs by exact Hxs. cbn [bind].
      apply augment_without_xs, Hxs. }
  destruct (dict_has "xxs" table && dict_has "xxl" table)%bool eqn:Hboth.
  { apply andb_prop in Hboth as [H1 H2].
    rewrite augment_with_both by assumption. cbn [bind].
    apply augment_with_both; assumption. }
  rewrite augment_runs by assumption.
  destruct (derived_tier (derive_xxs repr_float) _) as [xxs|e] eqn:Exxs;
    [|reflexivity].
  destruct (derived_tier derive_xxl _) as [xxl|e] eqn:Exxl; [|reflexivity].
  cbn [bind].
  set (table2 := with_xxl xxl (with_xxs xxs table)).
  assert (Hxs2 : dict_has "xs" table2 = true).
  { unfold table2. rewrite augmented_has by discriminate. exact Hxs. }
  destruct (dict_has "xxs" table2 && dict_has "xxl" table2)%bool eqn:Hboth2.
  { apply andb_prop in Hboth2 as [H1 H2]. apply augment_with_both; assumption. }
  rewrite augment_runs by assumption.
  unfold table2 at 1 2.
  rewrite !augmented_get by (assumption || discriminate).
  rewrite Exxs, Exxl. cbn [bind].
  do 2 f_equal. apply augmented_again; assumption.
Qed.

(** The tiers of a typed table. *)
Lemma typed_tier (table : dict) (k : string) (v : value) :
  ConfigTable_typed table = true ->
  dict_lookup k table = Some v ->
  exists d, v = VDict d /\ TierConfig_typed d = true.
Proof.
  unfold ConfigTable_typed. intros Ht.
  induction table as [|[k0 v0] table IH]; simpl in *; [discriminate|].
  apply andb_prop in Ht as [H0 Ht].
  destruct (String.eqb k k0); [|apply IH; exact Ht].
  intros [= <-]. destruct v0; try discriminate. eauto.
Qed.

Lemma typed_get (table : dict) (k : string) :
  ConfigTable_typed table = true ->
  exists d, dict_get k (VDict []) table = VDict d /\ TierConfig_typed d = true.
Proof.
  intros Ht. unfold dict_get.
  destruct (dict_lookup k table) as [v|] eqn:E.
  - apply (typed_tier table k v Ht E).
  - exists []. split; reflexivity.
Qed.

Lemma derived_tier_dict (derive : dict -> result dict) (d c : dict) :
  derive d = Ok c ->
  derived_tier derive (VDict d) =
  Ok (match d with [] => None | _ => Some c end).
Proof.
  intros H. unfold derived_tier. cbn [py_copy bind truthy derive_on].
  destruct d; [reflexivity|]. rewrite H. reflexivity.
Qed.

(** On a typed table the derivation path returns: both derivations return
    on their source tier, and each produces a tier when its source is not
    empty. *)
Lemma augment_typed (table : dict) :
  ConfigTable_typed table = true ->
  dict_has "xs" table = true ->
  (dict_has "xxs" table && dict_has "xxl" table)%bool = false ->
  exists xs xl X L,
    dict_lookup "xs" table = Some (VDict xs) /\
    dict_get "xl" (VDict []) table = VDict xl /\
    derive_xxs repr_float xs = Ok X /\
    derive_xxl xl = Ok L /\
    augment repr_float (VDict table) =
    Ok (VDict (with_xxl (match xl with [] => None | _ => Some L end)
                 (with_xxs (match xs with [] => None | _ => Some X end) table))).
Proof.
  intros Ht Hxs Hboth.
  rewrite dict_has_lookup in Hxs.
  destruct (dict_lookup "xs" table) as [v|] eqn:Exs; [|discriminate].
  destruct (typed_tier _ _ _ Ht Exs) as (xs & -> & Txs).
  destruct (typed_get table "xl" Ht) as (xl & Exl & Txl).
  destruct (derive_xxs_lookup repr_float xs Txs) as (X & ? & HX & _).
  destruct (derive_xxl_lookup xl Txl) as (L & ? & ? & ? & HL & _).
  exists xs, xl, X, L.
  repeat (split; [first [assumption | reflexivity]|]).
  rewrite augment_runs
    by (first [assumption | rewrite dict_has_lookup, Exs; reflexivity]).
  rewrite Exl. unfold dict_get. rewrite Exs.
  rewrite (derived_tier_dict _ _ _ HX), (derived_tier_dict _ _ _ HL).
  reflexivity.
Qed.

(** Every typed table is augmented without an exception. *)
Lemma augment_typed_returns (table : dict) :
  ConfigTable_typed table = true ->
  exists table', augment repr_float (VDict table) = Ok (VDict table').
Proof.
  intros Ht.
  destruct (dict_has "xs" table) eqn:Hxs;
    [|exists table; apply augment_without_xs, Hxs].
  destruct (dict_has "xxs" table && dict_has "xxl" table)%bool eqn:Hboth.
  - apply andb_prop in Hboth as [H1 H2].
    exists table. apply augment_with_both; assumption.
  - destruct (augment_typed table Ht Hxs Hboth) as (xs & xl & X & L & _ & _ & _ & _ & H).
    eexists. exact H.
Qed.

(** C9.  A table with no [xs] key is returned as it is, so it gains no
    [xxs] key.  A typed table with no [xl] key, or whose [xl] tier is
    empty, is augmented without an exception and gains no [xxl] key: the
    result holds the key exactly when the table already did. *)
Theorem skip_on_absence :
  (forall table : dict,
     dict_has "xs" table = false ->
     augment repr_float (VDict table) = Ok (VDict table)) /\
  (forall table : dict,
     ConfigTable_typed table = true ->
     dict_lookup "xl" table = None \/ dict_lookup "xl" table = Some (VDict []) ->
     exists table',
       augment repr_float (VDict table) = Ok (VDict table') /\
       dict_has "xxl" table' = dict_has "xxl" table).
Proof.
  split; [exact augment_without_xs|].
  intros table Ht Hxl.
  destruct (dict_has "xs" table) eqn:Hxs;
    [|exists table; split; [apply augment_without_xs, Hxs|reflexivity]].
  destruct (dict_has "xxs" table && dict_has "xxl" table)%bool eqn:Hboth.
  { apply andb_prop in Hboth as [H1 H2].
    exists table. split; [apply augment_with_both; assumption|reflexivity]. }
  destruct (augment_typed table Ht Hxs Hboth)
    as (xs & xl & X & L & _ & Exl & _ & _ & H).
  assert (xl = []) as ->.
  { unfold dict_get in Exl. destruct Hxl as [E|E]; rewrite E in Exl; congruence. }
  eexists. split; [exact H|].
  cbn [with_xxl]. destruct xs; cbn [with_xxs]; [reflexivity|].
  rewrite dict_has_prepend. reflexivity.
Qed.

(** What a successful run of the loop body returns: the table itself, or
    the table with the produced tiers stored. *)
Lemma augment_result (table : dict) (T' : value) :
  augment repr_float (VDict table) = Ok T' ->
  T' = VDict table \/
  exists xxs xxl,
    derived_tier (derive_xxs repr_float) (dict_get "xs" (VDict []) table) = Ok xxs /\
    derived_tier derive_xxl (dict_get "xl" (VDict []) table) = Ok xxl /\
    T' = VDict (with_xxl xxl (with_xxs xxs table)).
Proof.
  intros H.
  destruct (dict_has "xs" table) eqn:Hxs;
    [|rewrite augment_without_xs in H by exact Hxs; left; congruence].
  destruct (dict_has "xxs" table && dict_has "xxl" table)%bool eqn:Hboth.
  { apply andb_prop in Hboth as [H1 H2].
    rewrite augment_with_both in H by assumption. left; congruence. }
  rewrite augment_runs in H by assumption.
  destruct (derived_tier (derive_xxs repr_float) _) as [xxs|]; [|discriminate].
  destruct (derived_tier derive_xxl _) as [xxl|]; [|discriminate].
  cbn [bind] in H. right. exists xxs, xxl. repeat split; congruence.
Qed.

(** C1, as the code has it.  A table with no [xs] key is returned as it
    is.  For a typed table that has an [xs] key and does not hold both
    [xxs] and [xxl], the two derivations return on the [xs] tier and on the
    [xl] tier (the empty tier when [xl] is absent), and the result is
    decided tier by tier: under [xxs] it holds the tier derived from [xs]
    when [xs] is not empty (the value the table already had under [xxs], if
    any, takes its place) and what the table had when [xs] is empty; under
    [xxl] it holds the tier derived from [xl] when [xl] is not empty and
    what the table had when [xl] is absent or empty. *)
Theorem augment_derives_from_xs_and_xl :
  (forall table : dict,
     dict_has "xs" table = false ->
     augment repr_float (VDict table) = Ok (VDict table)) /\
  (forall table : dict,
     dict_wf table ->
     ConfigTable_typed table = true ->
     dict_has "xs" table = true ->
     (dict_has "xxs" table && dict_has "xxl" table)%bool = false ->
     exists xs xl X L table',
       dict_lookup "xs" table = Some (VDict xs) /\
       dict_get "xl" (VDict []) table = VDict xl /\
       derive_xxs repr_float xs = Ok X /\
       derive_xxl xl = Ok L /\
       augment repr_float (VDict table) = Ok (VDict table') /\
       dict_lookup "xxs" table' =
         match xs with
         | [] => dict_lookup "xxs" table
         | _ => Some (dict_get "xxs" (VDict X) table)
         end /\
       dict_lookup "xxl" table' =
         match xl with
         | [] => dict_lookup "xxl" table
         | _ => Some (VDict L)
         end).
Proof.
  split; [exact augment_without_xs|].
  intros table Hwf Ht Hxs Hboth.
  destruct (augment_typed table Ht Hxs Hboth)
    as (xs & xl & X & L & Exs & Exl & HX & HL & H).
  exists xs, xl, X, L. eexists.
  repeat (split; [eassumption|]).
  rewrite !with_xxl_lookup, !with_xxs_lookup by exact Hwf.
  split; destruct xl, xs; reflexivity.
Qed.

(** X11.  Let the loop body return on a table with pairwise distinct keys.
    The entries of the result other than [xxs] and [xxl] are those of the
    table, in the same order.  An [xxs] tier the table did not have is the
    first entry of the result and is the tier derived from [xs]; an [xxl]
    tier the table did not have is the last entry and is the tier derived
    from [xl].  When the table had neither key, the result is the table
    with at most one entry, [xxs], in front and at most one entry, [xxl],
    behind. *)
Theorem new_tiers_first_and_last :
  forall (table : dict) (T' : value),
    dict_wf table ->
    augment repr_float (VDict table) = Ok T' ->
    exists table',
      T' = VDict table' /\
      remove_key "xxs" (remove_key "xxl" table') =
        remove_key "xxs" (remove_key "xxl" table) /\
      (dict_has "xxs" table = false ->
       forall v, dict_lookup "xxs" table' = Some v ->
         (exists rest, table' = ("xxs", v) :: rest) /\
         (exists c, v = VDict c /\
                    derived_tier (derive_xxs repr_float)
                      (dict_get "xs" (VDict []) table) = Ok (Some c))) /\
      (dict_has "xxl" table = false ->
       forall v, dict_lookup "xxl" table' = Some v ->
         (exists rest, table' = rest ++ [("xxl", v)]) /\
         (exists c, v = VDict c /\
                    derived_tier derive_xxl
                      (dict_get "xl" (VDict []) table) = Ok (Some c))) /\
      (dict_has "xxs" table = false -> dict_has "xxl" table = false ->
       exists front back,
         table' = front ++ table ++ back /\
         (front = [] \/ exists v, front = [("xxs", v)]) /\
         (back = [] \/ exists v, back = [("xxl", v)])).
Proof.
  intros table T' Hwf H.
  destruct (augment_result table T' H) as [->|(xxs & xxl & Exxs & Exxl & ->)].
  - exists table. split; [reflexivity|]. split; [reflexivity|].
    split; [|split].
    + intros Hno v Hv. apply dict_has_false_lookup in Hno. congruence.
    + intros Hno v Hv. apply dict_has_false_lookup in Hno. congruence.
    + intros _ _. exists [], []. rewrite app_nil_r. auto.
  - eexists. split; [reflexivity|].
    split; [apply augmented_others, Hwf|].
    assert (Hfront : dict_has "xxs" table = false ->
                     with_xxs xxs table =
                     match xxs with
                     | Some c => ("xxs", VDict c) :: table
                     | None => table
                     end).
    { intros Hno. apply dict_has_false_lookup in Hno.
      destruct xxs; simpl; [|reflexivity].
      rewrite dict_prepend_wf by exact Hwf.
      unfold dict_get. rewrite Hno, remove_key_absent by exact Hno.
      reflexivity. }
    assert (Hback : dict_has "xxl" table = false ->
                    with_xxl xxl (with_xxs xxs table) =
                    match xxl with
                    | Some c => with_xxs xxs table ++ [("xxl", VDict c)]
                    | None => with_xxs xxs table
                    end).
    { intros Hno. apply dict_has_false_lookup in Hno.
      destruct xxl; simpl; [|reflexivity].
      apply dict_set_absent.
      rewrite with_xxs_lookup by exact Hwf. destruct xxs; simpl; exact Hno. }
    split; [|split].
    + intros Hno v Hv. rewrite with_xxl_lookup in Hv.
      assert (Hv' : dict_lookup "xxs" (with_xxs xxs table) = Some v)
        by (destruct xxl; exact Hv).
      rewrite (Hfront Hno) in *. destruct xxs as [c|].
      * simpl in Hv'. injection Hv' as <-.
        split; [destruct xxl; simpl; eexists; reflexivity|].
        exists c. split; [reflexivity|exact Exxs].
      * apply dict_has_false_lookup in Hno. congruence.
    + intros Hno v Hv. rewrite with_xxl_lookup in Hv. rewrite (Hback Hno).
      destruct xxl as [c|].
      * simpl in Hv. injection Hv as <-.
        split; [eexists; reflexivity|].
        exists c. split; [reflexivity|exact Exxl].
      * rewrite with_xxs_lookup in Hv by exact Hwf.
        apply dict_has_false_lookup in Hno.
        destruct xxs; simpl in Hv; congruence.
    + intros Hno1 Hno2. rewrite (Hback Hno2), (Hfront Hno1).
      destruct xxs as [x|], xxl as [l|].
      * exists [("xxs", VDict x)], [("xxl", VDict l)].
        split; [reflexivity|]. split; right; eexists; reflexivity.
      * exists [("xxs", VDict x)], []. rewrite app_nil_r.
        split; [reflexivity|]. split; [right; eexists; reflexivity|left; reflexivity].
      * exists [], [("xxl", VDict l)].
        split; [reflexivity|]. split; [left; reflexivity|right; eexists; reflexivity].
      * exists [], []. rewrite app_nil_r.
        split; [reflexivity|]. split; left; reflexivity.
Qed.

(** C10.  On a typed table with pairwise distinct keys that has an [xs]
    key, a table with only one of the derived keys is not skipped, and the
    two keys are not treated alike.  With [xxl] there and [xxs] not, and a
    non-empty [xl] tier, the result holds under [xxl] the tier derived
    from [xl], whatever the table held there.  With [xxs] there and [xxl]
    not, the result holds under [xxs] the value the table had; when [xs] is
    not empty that entry is the first of the result, and when [xl] is not
    empty the tier derived from it is stored under [xxl]. *)
Theorem partial_presence :
  forall table : dict,
    dict_wf table ->
    ConfigTable_typed table = true ->
    dict_has "xs" table = true ->
    (dict_has "xxs" table = false ->
     forall old xl,
       dict_lookup "xxl" table = Some old ->
       dict_lookup "xl" table = Some (VDict xl) ->
       xl <> [] ->
       exists L table',
         derive_xxl xl = Ok L /\
         augment repr_float (VDict table) = Ok (VDict table') /\
         dict_lookup "xxl" table' = Some (VDict L)) /\
    (dict_has "xxl" table = false ->
     forall old,
       dict_lookup "xxs" table = Some old ->
       exists table',
         augment repr_float (VDict table) = Ok (VDict table') /\
         dict_lookup "xxs" table' = Some old /\
         (forall xs, dict_lookup "xs" table = Some (VDict xs) -> xs <> [] ->
                     exists rest, table' = ("xxs", old) :: rest) /\
         (forall xl, dict_lookup "xl" table = Some (VDict xl) -> xl <> [] ->
                     exists L, derive_xxl xl = Ok L /\
                               dict_lookup "xxl" table' = Some (VDict L))).
Proof.
  intros table Hwf Ht Hxs. split.
  - intros Hno old xl0 Hold Hxl Hne.
    assert (Hboth : (dict_has "xxs" table && dict_has "xxl" table)%bool = false)
      by (rewrite Hno; reflexivity).
    destruct (augment_typed table Ht Hxs Hboth)
      as (xs & xl & X & L & Exs & Exl & HX & HL & H).
    unfold dict_get in Exl. rewrite Hxl in Exl. injection Exl as <-.
    exists L. eexists. split; [exact HL|]. split; [exact H|].
    rewrite with_xxl_lookup. destruct xl0; [congruence|reflexivity].
  - intros Hno old Hold.
    assert (Hboth : (dict_has "xxs" table && dict_has "xxl" table)%bool = false)
      by (rewrite Hno; apply andb_false_r).
    destruct (augment_typed table Ht Hxs Hboth)
      as (xs & xl & X & L & Exs & Exl & HX & HL & H).
    eexists. split; [exact H|].
    split; [|split].
    + rewrite with_xxl_lookup, with_xxs_lookup by exact Hwf.
      unfold dict_get. rewrite Hold. destruct xl, xs; reflexivity.
    + intros xs0 Hxs0 Hne. rewrite Exs in Hxs0. injection Hxs0 as <-.
      destruct xs as [|f xs]; [congruence|]. cbn [with_xxs].
      rewrite dict_prepend_wf by exact Hwf.
      unfold dict_get. rewrite Hold.
      destruct xl; cbn [with_xxl]; [eexists; reflexivity|].
      cbn [dict_set]. eexists; reflexivity.
    + intros xl0 Hxl0 Hne. unfold dict_get in Exl. rewrite Hxl0 in Exl.
      injection Exl as <-. exists L. split; [exact HL|].
      rewrite with_xxl_lookup. destruct xl0; [congruence|reflexivity].
Qed.

End AugmentFacts.

(** ** The store *)

Lemma nth_error_list_set_other {A : Type} (i j : nat) (x : A) (l : list A) :
  i <> j -> nth_error (list_set i x l) j = nth_error l j.
Proof.
  revert i j. induction l as [|y l IH]; intros [|i] [|j] Hne; simpl;
    try reflexivity; try congruence.
  apply IH. congruence.
Qed.

Lemma length_list_set {A : Type} (i : nat) (x : A) (l : list A) :
  List.length (list_set i x l) = List.length l.
Proof.
  revert i. induction l as [|y l IH]; intros [|i]; simpl; auto.
Qed.

Lemma nth_error_lt {A : Type} (l : list A) (a : nat) (x : A) :
  nth_error l a = Some x -> (a < List.length l)%nat.
Proof. intros H. apply nth_error_Some. congruence. Qed.

Lemma nth_error_app_old {A : Type} (l more : list A) (a : nat) (x : A) :
  nth_error l a = Some x -> nth_error (l ++ more) a = Some x.
Proof.
  intros H. rewrite nth_error_app1; [exact H|].
  apply nth_error_Some. congruence.
Qed.

Lemma nth_app_old {A : Type} (l more : list A) (a : nat) (d : A) :
  (a < List.length l)%nat -> nth a (l ++ more) d = nth a l d.
Proof. intros H. apply app_nth1, H. Qed.

(** A source that is true is read the same after allocations. *)
Lemma load_truthy_extends (s s' : store) (e : option entry) :
  (exists more, tiers s' = tiers s ++ more) ->
  truthy (load s e) = true -> load s' e = load s e.
Proof.
  intros [more Hm] Ht. destruct e as [[a|o]|]; simpl in *; try reflexivity.
  unfold read_tier in *. rewrite Hm.
  destruct (Nat.lt_ge_cases a (List.length (tiers s))) as [Hlt|Hge].
  - rewrite nth_app_old by exact Hlt. reflexivity.
  - rewrite (nth_overflow (tiers s)) in Ht by exact Hge. discriminate.
Qed.

Lemma rebuilt_or_skipped_extends (s s' : store) (t : table) :
  (exists more, tiers s' = tiers s ++ more) ->
  rebuilt_or_skipped s t -> rebuilt_or_skipped s' t.
Proof.
  intros Hm [H|H]; [left; exact H|right].
  rewrite (load_truthy_extends s s' _ Hm H). exact H.
Qed.

Lemma frame_refl (s : store) : frame s s.
Proof.
  unfold frame. split; [exists []; rewrite app_nil_r; reflexivity|].
  repeat split; auto.
Qed.

Lemma frame_trans (s1 s2 s3 : store) : frame s1 s2 -> frame s2 s3 -> frame s1 s3.
Proof.
  intros (Hm1 & Hl1 & Ht1 & Hk1 & Hd1) (Hm2 & Hl2 & Ht2 & Hk2 & Hd2).
  unfold frame. split; [|split; [|split; [|split]]].
  - destruct Hm1 as [m1 E1], Hm2 as [m2 E2]. exists (m1 ++ m2).
    rewrite E2, E1, app_assoc. reflexivity.
  - lia.
  - intros a t Ha Hr. apply Ht2; [apply Ht1; assumption|].
    apply (rebuilt_or_skipped_extends s1 s2 t Hm1 Hr).
  - congruence.
  - intros k. destruct (Hd2 k) as [E|(a & E & Ha)].
    + rewrite E. apply Hd1.
    + right. exists a. split; [exact E|lia].
Qed.

(** A derivation that produces no tier had a false source. *)
Lemma derived_tier_none (derive : dict -> result dict) (v : value) :
  derived_tier derive v = Ok None -> truthy v = false.
Proof.
  unfold derived_tier.
  destruct v; simpl; try discriminate;
    match goal with
    | |- context [match ?l with [] => _ | _ => _ end] => destruct l
    end; try reflexivity;
    cbn [bind]; try discriminate;
    destruct (derive _); discriminate.
Qed.

Section StoreFacts.

Variable repr_float : float -> string.

Lemma visit_frame (model_hash : string) (s s' : store) :
  visit repr_float model_hash s = Ok s' -> frame s s'.
Proof.
  unfold visit.
  destruct (dict_lookup model_hash (data s)) as [[t|o]|] eqn:Ek;
    try (intros [= <-]; apply frame_refl).
  destruct (dict_has "xs" (read_table s t)) eqn:Hxs;
    [|intros [= <-]; apply frame_refl].
  destruct (dict_has "xxs" (read_table s t) && dict_has "xxl" (read_table s t))%bool;
    [intros [= <-]; apply frame_refl|].
  destruct (derived_tier (derive_xxs repr_float) _) as [xxs|] eqn:Exxs;
    [|discriminate].
  cbn [bind].
  assert (Hhas : dict_has model_hash (data s) = true)
    by (rewrite dict_has_lookup, Ek; reflexivity).
  destruct xxs as [c|].
  - (* a new table is built; the store of line 62 goes into it *)
    unfold alloc_tier, alloc_table. cbn [tiers tables data].
    destruct (derived_tier derive_xxl _) as [xxl|]; [|discriminate].
    cbn [bind]. intros [= <-].
    destruct xxl as [l|];
      unfold frame, write_data, write_table, alloc_tier, alloc_table;
      cbn [tiers tables data].
    + split; [exists ([c] ++ [l]); rewrite app_assoc; reflexivity|].
      split; [rewrite length_list_set, length_app; simpl; lia|].
      split; [|split].
      * intros a tb Ha _.
        rewrite nth_error_list_set_other
          by (apply nth_error_lt in Ha; lia).
        apply nth_error_app_old, Ha.
      * rewrite keys_dict_set, Hhas. reflexivity.
      * intros k. rewrite dict_lookup_set.
        destruct (String.eqb k model_hash); [right|left; reflexivity].
        eexists. split; [reflexivity|lia].
    + split; [exists [c]; reflexivity|].
      split; [rewrite length_app; simpl; lia|].
      split; [|split].
      * intros a tb Ha _. apply nth_error_app_old, Ha.
      * rewrite keys_dict_set, Hhas. reflexivity.
      * intros k. rewrite dict_lookup_set.
        destruct (String.eqb k model_hash); [right|left; reflexivity].
        eexists. split; [reflexivity|lia].
  - (* no xxs tier: the table of the model is the current one *)
    apply derived_tier_none in Exxs.
    destruct (derived_tier derive_xxl _) as [xxl|]; [|discriminate].
    cbn [bind]. intros [= <-].
    destruct xxl as [l|];
      unfold frame, write_data, write_table, alloc_tier, alloc_table;
      cbn [tiers tables data].
    + split; [exists [l]; reflexivity|].
      split; [rewrite length_list_set; lia|].
      split; [|split].
      * intros a tb Ha Hr.
        destruct (Nat.eq_dec t a) as [->|Hne];
          [|rewrite nth_error_list_set_other by exact Hne; exact Ha].
        exfalso. unfold read_table in *.
        rewrite (nth_error_nth _ _ _ Ha) in *.
        destruct Hr as [Hr|Hr]; congruence.
      * rewrite keys_dict_set, Hhas. reflexivity.
      * intros k. rewrite dict_lookup_set.
        destruct (String.eqb_spec k model_hash) as [->|]; left;
          [symmetry; exact Ek|reflexivity].
    + split; [exists []; rewrite app_nil_r; reflexivity|].
      split; [lia|].
      split; [auto|split].
      * rewrite keys_dict_set, Hhas. reflexivity.
      * intros k. rewrite dict_lookup_set.
        destruct (String.eqb_spec k model_hash) as [->|]; left;
          [symmetry; exact Ek|reflexivity].
Qed.

Lemma visits_raise (hashes : list string) (e : exn) :
  fold_left (fun acc model_hash => s'' <- acc ;; visit repr_float model_hash s'')
            hashes (Raise e) = Raise e.
Proof. induction hashes as [|h hashes IH]; simpl; auto. Qed.

Lemma visits_frame (hashes : list string) (s s' : store) :
  fold_left (fun acc model_hash => s'' <- acc ;; visit repr_float model_hash s'')
            hashes (Ok s) = Ok s' ->
  frame s s'.
Proof.
  revert s. induction hashes as [|h hashes IH]; intros s H; simpl in H.
  - injection H as <-. apply frame_refl.
  - destruct (visit repr_float h s) as [s1|e] eqn:E.
    + apply (frame_trans s s1 s'); [apply (visit_frame h), E|apply IH, H].
    + rewrite visits_raise in H. discriminate.
Qed.

(** C2, as the code has it.  When the run over a registry returns, every
    tier object of the input store is unchanged, and so is every table
    that has no [xs] key or whose [xs] tier yields an [xxs] tier: the
    augmented table is then a new object.  The registry itself is updated
    in place: it keeps its keys in their order, and each of its entries
    refers to the table it referred to or to a table built by the run. *)
Theorem run_keeps_tiers_and_rebinds_registry :
  forall s s' : store,
    add_enhanced_tiers repr_float s = Ok s' ->
    (forall a d, nth_error (tiers s) a = Some d ->
                 nth_error (tiers s') a = Some d) /\
    (forall a t, nth_error (tables s) a = Some t ->
                 rebuilt_or_skipped s t ->
                 nth_error (tables s') a = Some t) /\
    keys (data s') = keys (data s) /\
    (forall k, dict_lookup k (data s') = dict_lookup k (data s) \/
               exists a, dict_lookup k (data s') = Some (Obj a) /\
                         (List.length (tables s) <= a)%nat).
Proof.
  intros s s' H. apply visits_frame in H.
  destruct H as ([more Hm] & _ & Ht & Hk & Hd).
  split; [|auto].
  intros a d Ha. rewrite Hm. apply nth_error_app_old, Ha.
Qed.

End StoreFacts.

(** ** The loop body on the store computes [augment] *)

Section MapValues.

Context {A B : Type} (f : A -> B).


Lemma map_dict_has (k : string) (d : list (string * A)) :
  dict_has k (map_values f d) = dict_has k d.
Proof.
  induction d as [|[k0 v0] d IH]; simpl; [reflexivity|].
  destruct (String.eqb k k0); [reflexivity|exact IH].
Qed.

Lemma map_dict_lookup (k : string) (d : list (string * A)) :
  dict_lookup k (map_values f d) = option_map f (dict_lookup k d).
Proof.
  induction d as [|[k0 v0] d IH]; simpl; [reflexivity|].
  destruct (String.eqb k k0); [reflexivity|exact IH].
Qed.

Lemma map_dict_set (k : string) (v : A) (d : list (string * A)) :
  map_values f (dict_set k v d) = dict_set k (f v) (map_values f d).
Proof.
  induction d as [|[k0 v0] d IH]; simpl; [reflexivity|].
  destruct (String.eqb k k0); simpl; [reflexivity|].
  rewrite <- IH. reflexivity.
Qed.

Lemma map_dict_update (acc d : list (string * A)) :
  map_values f (dict_update acc d) = dict_update (map_values f acc) (map_values f d).
Proof.
  unfold dict_update. revert acc.
  induction d as [|[k0 v0] d IH]; intros acc; simpl; [reflexivity|].
  rewrite IH. f_equal. apply map_dict_set.
Qed.

End MapValues.

Lemma nth_list_set_same {A : Type} (i : nat) (x d : A) (l : list A) :
  (i < List.length l)%nat -> nth i (list_set i x l) d = x.
Proof.
  revert i. induction l as [|y l IH]; intros [|i] H; simpl in *;
    try lia; [reflexivity|]. apply IH. lia.
Qed.

Lemma nth_length_app {A : Type} (l more : list A) (x d : A) :
  nth (List.length l) (l ++ x :: more) d = x.
Proof.
  rewrite app_nth2 by lia. rewrite Nat.sub_diag. reflexivity.
Qed.

Lemma table_value_get (s : store) (t : table) (k : string) :
  dict_get k (VDict []) (table_value s t) = load s (dict_lookup k t).
Proof.
  unfold dict_get, table_value. rewrite map_dict_lookup.
  destruct (dict_lookup k t); reflexivity.
Qed.

(** Entries whose references are allocated read the same after further
    allocations of tiers. *)
Lemma load_extends (s s' : store) (k : string) (e : entry) (t : table) :
  refs_below (List.length (tiers s)) t ->
  (exists more, tiers s' = tiers s ++ more) ->
  In (k, e) t ->
  load s' (Some e) = load s (Some e).
Proof.
  intros Hrefs [more Hm] Hin. destruct e as [a|o]; simpl; [|reflexivity].
  unfold read_tier. rewrite Hm, nth_app_old; [reflexivity|].
  apply (Hrefs k a Hin).
Qed.

Lemma entry_value_new (s : store) (old : list dict) (c : dict) (more : list dict) :
  tiers s = old ++ c :: more ->
  entry_value s (Obj (List.length old)) = VDict c.
Proof.
  intros H. unfold entry_value, load, read_tier.
  rewrite H, nth_length_app. reflexivity.
Qed.

Lemma dict_lookup_In {V : Type} (k : string) (v : V) (d : list (string * V)) :
  dict_lookup k d = Some v -> exists k', In (k', v) d.
Proof.
  induction d as [|[k0 v0] d IH]; simpl; [discriminate|].
  destruct (String.eqb k k0).
  - intros [= <-]. exists k0. auto.
  - intros H. destruct (IH H) as [k' Hin]. exists k'. auto.
Qed.

Lemma load_lookup_extends (s s' : store) (k : string) (t : table) :
  refs_below (List.length (tiers s)) t ->
  (exists more, tiers s' = tiers s ++ more) ->
  load s' (dict_lookup k t) = load s (dict_lookup k t).
Proof.
  intros Hrefs Hm. destruct (dict_lookup k t) as [e|] eqn:E; [|reflexivity].
  destruct (dict_lookup_In _ _ _ E) as [k' Hin].
  apply (load_extends s s' k' e t Hrefs Hm Hin).
Qed.

Lemma table_value_extends (s s' : store) (t : table) :
  refs_below (List.length (tiers s)) t ->
  (exists more, tiers s' = tiers s ++ more) ->
  table_value s' t = table_value s t.
Proof.
  intros Hrefs Hm. unfold table_value. apply map_ext_in.
  intros [k e] Hin. simpl. f_equal.
  apply (load_extends s s' k e t Hrefs Hm Hin).
Qed.

Lemma value_of_nondict_augment (repr_float : float -> string) (o : nondict) :
  augment repr_float (value_of_nondict o) = Ok (value_of_nondict o).
Proof. destruct o; reflexivity. Qed.

Section Refinement.

Variable repr_float : float -> string.

(** One visit of the loop, read back as values: the model under
    [model_hash] becomes what [augment] makes of its value, and the visit
    raises exactly when [augment] does. *)
Lemma visit_refines_augment (s : store) (model_hash : string) (e : entry) :
  store_wf s ->
  dict_lookup model_hash (data s) = Some e ->
  match augment repr_float (model_value s e) with
  | Ok T' =>
      exists s' e',
        visit repr_float model_hash s = Ok s' /\
        dict_lookup model_hash (data s') = Some e' /\
        model_value s' e' = T'
  | Raise x => visit repr_float model_hash s = Raise x
  end.
Proof.
  intros [Htables Hdata] Ek. unfold visit. rewrite Ek.
  destruct e as [t|o].
  2:{ cbn [model_value]. rewrite value_of_nondict_augment.
      exists s, (Imm o). auto. }
  cbn [model_value].
  assert (Ht : (t < List.length (tables s))%nat).
  { destruct (dict_lookup_In _ _ _ Ek) as [k' Hin]. apply (Hdata k' t Hin). }
  set (tb := read_table s t).
  assert (Hrefs : refs_below (List.length (tiers s)) tb).
  { rewrite Forall_forall in Htables. apply Htables.
    unfold tb, read_table. apply nth_In, Ht. }
  cbn [augment]. unfold table_value at 1 2 3.
  rewrite !map_dict_has. fold (table_value s tb).
  destruct (dict_has "xs" tb) eqn:Hxs; [|exists s, (Obj t); auto].
  destruct (dict_has "xxs" tb && dict_has "xxl" tb)%bool;
    [exists s, (Obj t); auto|].
  rewrite !table_value_get.
  destruct (derived_tier (derive_xxs repr_float) _) as [xxs|x]; [|reflexivity].
  cbn [bind].
  destruct xxs as [c|].
  - (* line 44 builds a new table *)
    unfold alloc_tier, alloc_table. cbn [tiers tables data].
    set (s1 := mkStore (tiers s ++ [c]) _ (data s)).
    assert (Hm1 : exists more, tiers s1 = tiers s ++ more) by (exists [c]; reflexivity).
    rewrite (load_lookup_extends s s1 "xl" tb Hrefs Hm1).
    destruct (derived_tier derive_xxl _) as [xxl|x]; [|reflexivity].
    cbn [bind]. eexists. exists (Obj (List.length (tables s))).
    split; [reflexivity|].
    split; [cbn [write_data data]; rewrite dict_lookup_set, String.eqb_refl;
            reflexivity|].
    cbn [model_value with_xxs]. f_equal.
    destruct xxl as [l|]; unfold s1, alloc_tier, write_table, write_data, read_table;
      cbn [tiers tables data with_xxl].
    + rewrite nth_list_set_same by (rewrite length_app; simpl; lia).
      rewrite !nth_length_app.
      unfold table_value at 1. rewrite map_dict_set.
      unfold dict_prepend. rewrite map_dict_update.
      match goal with
      | |- context [map_values (entry_value ?sf) tb] => set (s2 := sf)
      end.
      fold (table_value s2 tb). cbn [map_values map fst snd].
      rewrite (entry_value_new s2 (tiers s ++ [c]) l []) by reflexivity.
      rewrite (entry_value_new s2 (tiers s) c [l])
        by (cbn; rewrite <- app_assoc; reflexivity).
      rewrite (table_value_extends s s2 tb Hrefs)
        by (exists [c; l]; cbn; rewrite <- app_assoc; reflexivity).
      reflexivity.
    + rewrite nth_length_app.
      unfold table_value at 1. unfold dict_prepend. rewrite map_dict_update.
      match goal with
      | |- context [map_values (entry_value ?sf) tb] => set (s2 := sf)
      end.
      fold (table_value s2 tb). cbn [map_values map fst snd].
      rewrite (entry_value_new s2 (tiers s) c []) by reflexivity.
      rewrite (table_value_extends s s2 tb Hrefs)
        by (exists [c]; reflexivity).
      reflexivity.
  - (* the table of the model stays the current one *)
    destruct (derived_tier derive_xxl _) as [xxl|x]; [|reflexivity].
    cbn [bind]. eexists. exists (Obj t).
    split; [reflexivity|].
    split; [cbn [write_data data]; rewrite dict_lookup_set, String.eqb_refl;
            reflexivity|].
    cbn [model_value with_xxs]. f_equal.
    destruct xxl as [l|]; unfold alloc_tier, write_table, write_data, read_table;
      cbn [tiers tables data with_xxl].
    + rewrite nth_list_set_same by exact Ht.
      fold (read_table s t). fold tb.
      unfold table_value at 1. rewrite map_dict_set.
      match goal with
      | |- context [map_values (entry_value ?sf) tb] => set (s2 := sf)
      end.
      fold (table_value s2 tb).
      rewrite (entry_value_new s2 (tiers s) l []) by reflexivity.
      rewrite (table_value_extends s s2 tb Hrefs)
        by (exists [l]; reflexivity).
      reflexivity.
    + fold (read_table s t). fold tb.
      apply (table_value_extends s _ tb Hrefs).
      exists []. cbn. rewrite app_nil_r. reflexivity.
Qed.

End Refinement.

(** ** Worked examples *)

Lemma distinct_keys_wf (d : dict) : distinct_keys d = true -> dict_wf d.
Proof.
  unfold dict_wf. induction d as [|[k v] d IH]; simpl; intros H.
  - constructor.
  - apply andb_prop in H as [H1 H2]. constructor; [|apply IH, H2].
    intros Hin. apply dict_has_In in Hin. rewrite Hin in H1. discriminate.
Qed.

(** Against C1 as stated: a table with a non-empty [xl] tier and no [xs]
    key is returned as it is, with no [xxl] tier; and a table whose [xs]
    tier is there but empty gets no [xxs] tier. *)
Lemma xl_without_xs_gets_no_xxl :
  dict_lookup "xs" table_no_xs = None /\
  dict_lookup "xl" table_no_xs = Some (VDict [("max_train_epochs", VInt 11)]) /\
  augment sample_repr_float (VDict table_no_xs) = Ok (VDict table_no_xs) /\
  dict_has "xxl" table_no_xs = false /\
  dict_lookup "xs" table_empty_xs = Some (VDict []) /\
  exists table',
    augment sample_repr_float (VDict table_empty_xs) = Ok (VDict table') /\
    dict_has "xxs" table' = false /\
    dict_has "xxl" table' = true.
Proof.
  repeat (split; [reflexivity|]).
  eexists. split; [vm_compute; reflexivity|]. split; reflexivity.
Qed.

Lemma augment_derives_from_xs_and_xl_witness :
  dict_wf table_full /\
  ConfigTable_typed table_full = true /\
  exists X L table',
    augment sample_repr_float (VDict table_full) = Ok (VDict table') /\
    derive_xxs sample_repr_float scenario_xs = Ok X /\
    derive_xxl sample_xl = Ok L /\
    dict_lookup "xxs" table' = Some (VDict X) /\
    dict_lookup "xxl" table' = Some (VDict L).
Proof.
  split; [apply distinct_keys_wf; reflexivity|]. split; [reflexivity|].
  destruct (proj2 (augment_derives_from_xs_and_xl sample_repr_float) table_full
              (distinct_keys_wf table_full eq_refl) eq_refl eq_refl eq_refl)
    as (xs & xl & X & L & table' & Exs & Exl & HX & HL & H & Hxxs & Hxxl).
  cbn in Exs, Exl. injection Exs as <-. injection Exl as <-.
  exists X, L, table'. repeat (split; [assumption|]). exact Hxxl.
Defined.

(** Against C2 as stated: the run rebinds the entry of the model in the
    registry it was given, and when the [xs] tier is empty it stores the
    [xxl] tier into the table it was given. *)
Lemma registry_updated_in_place :
  add_enhanced_tiers sample_repr_float store_one_model = Ok store_one_model_after /\
  data store_one_model = [("m", Obj 0%nat)] /\
  data store_one_model_after = [("m", Obj 1%nat)] /\
  registry_value store_one_model =
    [("m", VDict [("xs", VDict [("max_train_epochs", VInt 38)])])] /\
  registry_value store_one_model_after =
    [("m", VDict [("xxs", VDict [("max_train_epochs", VInt 45);
                                 ("train_batch_size", VInt 2);
                                 ("gradient_accumulation_steps", VInt 4);
                                 ("noise_offset", VFloat 0.015%float);
                                 ("lr_scheduler", VStr "constant_with_warmup");
                                 ("max_data_loader_n_workers", VInt 2)]);
                  ("xs", VDict [("max_train_epochs", VInt 38)])])] /\
  exists s',
    add_enhanced_tiers sample_repr_float store_empty_xs = Ok s' /\
    nth_error (tables store_empty_xs) 0 =
      Some [("xs", Obj 0%nat); ("xl", Obj 1%nat)] /\
    nth_error (tables s') 0 =
      Some [("xs", Obj 0%nat); ("xl", Obj 1%nat); ("xxl", Obj 2%nat)].
Proof.
  split; [vm_compute; reflexivity|].
  do 4 (split; [reflexivity|]).
  eexists. split; [vm_compute; reflexivity|]. split; reflexivity.
Qed.

Lemma run_keeps_tiers_and_rebinds_registry_witness :
  add_enhanced_tiers sample_repr_float store_one_model = Ok store_one_model_after /\
  nth_error (tiers store_one_model_after) 0 = Some [("max_train_epochs", VInt 38)] /\
  nth_error (tables store_one_model_after) 0 = Some [("xs", Obj 0%nat)] /\
  keys (data store_one_model_after) = ["m"].
Proof.
  assert (E : add_enhanced_tiers sample_repr_float store_one_model =
              Ok store_one_model_after) by (vm_compute; reflexivity).
  split; [exact E|].
  destruct (run_keeps_tiers_and_rebinds_registry sample_repr_float
              store_one_model store_one_model_after E)
    as (Htiers & Htables & Hkeys & _).
  split; [apply Htiers; reflexivity|].
  split; [apply Htables; [reflexivity|right; reflexivity]|exact Hkeys].
Defined.

Lemma augment_idempotent_witness :
  dict_wf table_old_xxs /\
  (T <- augment sample_repr_float (VDict table_old_xxs) ;;
   augment sample_repr_float T) =
  augment sample_repr_float (VDict table_old_xxs).
Proof.
  split; [apply distinct_keys_wf; reflexivity|].
  apply (proj1 (augment_idempotent sample_repr_float)).
  apply distinct_keys_wf; reflexivity.
Defined.

Lemma new_tiers_first_and_last_witness :
  dict_wf table_full /\
  exists xxs xxl,
    augment sample_repr_float (VDict table_full) =
    Ok (VDict ([("xxs", xxs)] ++ table_full ++ [("xxl", xxl)])).
Proof.
  split; [apply distinct_keys_wf; reflexivity|].
  destruct (augment sample_repr_float (VDict table_full)) as [T'|e] eqn:E;
    [|vm_compute in E; discriminate].
  destruct (new_tiers_first_and_last sample_repr_float table_full T'
              (distinct_keys_wf table_full eq_refl) E)
    as (table' & -> & _ & _ & _ & Hboth).
  destruct (Hboth eq_refl eq_refl) as (front & back & -> & Hf & Hb).
  vm_compute in E. injection E as E.
  destruct Hf as [->|[x ->]]; [discriminate|].
  destruct Hb as [->|[l ->]]; [discriminate|].
  exists x, l. reflexivity.
Defined.

Lemma derive_xxs_overrides_witness :
  TierConfig_typed scenario_xs = true /\
  exists xxs,
    derive_xxs sample_repr_float scenario_xs = Ok xxs /\
    dict_lookup "max_train_epochs" xxs = Some (VInt 45) /\
    dict_lookup "unet_lr" xxs = Some (VFloat 8e-05%float) /\
    dict_lookup "train_batch_size" xxs = Some (VInt 2).
Proof.
  split; [reflexivity|].
  destruct (proj1 (derive_xxs_overrides sample_repr_float) scenario_xs eq_refl)
    as (xxs & epochs & Hr & He & Hepochs & Hbatch & _ & Hlr & _).
  cbn in He. injection He as <-.
  exists xxs. split; [exact Hr|]. split; [exact Hepochs|].
  split; [exact (Hlr _ eq_refl)|exact Hbatch].
Defined.

(** Against C5 as stated: on the [xs] tier of the specification's scenario
    the derived tier does not keep every field outside the eight listed
    ones, since [optimizer_args], which mentions [weight_decay], is
    replaced. *)
Lemma scenario_optimizer_args_replaced :
  exists xxs,
    derive_xxs sample_repr_float scenario_xs = Ok xxs /\
    dict_lookup "optimizer_args" scenario_xs =
      Some (VList [VStr "weight_decay=0.01"]) /\
    dict_lookup "optimizer_args" xxs =
      Some (VList [VStr "betas=(0.9, 0.999)"; VStr "weight_decay=0.0002";
                   VStr "eps=1e-08"]) /\
    ~ (forall k, ~ In k xxs_listed_keys ->
                 dict_lookup k xxs = dict_lookup k scenario_xs).
Proof.
  exists scenario_xxs_built.
  split; [vm_compute; reflexivity|].
  split; [reflexivity|]. split; [reflexivity|].
  intros H. specialize (H "optimizer_args").
  assert (Hout : ~ In "optimizer_args" xxs_listed_keys).
  { simpl. intros Hin.
    repeat (destruct Hin as [Hin|Hin]; [discriminate|]). exact Hin. }
  specialize (H Hout). discriminate.
Qed.

(** Against C6 as stated: for the learning rate 1e-6 the derived rate is
    the double below 1.15e-06, not 1.15e-06. *)
Lemma xxl_unet_lr_of_1e6 :
  derive_xxl [("unet_lr", VFloat 1e-6%float)] =
  Ok [("unet_lr", VFloat 1.1499999999999998e-06%float);
      ("max_train_epochs", VInt 8); ("train_batch_size", VInt 16);
      ("gradient_accumulation_steps", VInt 1);
      ("noise_offset", VFloat 0.045%float); ("lr_scheduler", VStr "cosine");
      ("lr_warmup_steps", VInt 150); ("max_data_loader_n_workers", VInt 8)] /\
  (1.1499999999999998e-06 =? 1.15e-06)%float = false /\
  (1.1499999999999998e-06 <? 1.15e-06)%float = true.
Proof. repeat split; vm_compute; reflexivity. Qed.

Lemma derive_xxl_learning_rates_witness :
  TierConfig_typed sample_xl = true /\
  exists xxl,
    derive_xxl sample_xl = Ok xxl /\
    dict_lookup "unet_lr" xxl = Some (VFloat 5e-05%float) /\
    dict_lookup "text_encoder_lr" xxl = None.
Proof.
  split; [reflexivity|].
  destruct (proj1 derive_xxl_learning_rates sample_xl eq_refl)
    as (xxl & Hr & Hu & _ & _ & Hte).
  exists xxl. split; [exact Hr|].
  split; [exact (Hu _ eq_refl)|exact (Hte eq_refl)].
Defined.

Lemma derive_xxl_overrides_witness :
  TierConfig_typed sample_xl = true /\
  exists xxl,
    derive_xxl sample_xl = Ok xxl /\
    dict_lookup "max_train_epochs" xxl = Some (VInt 8) /\
    dict_lookup "train_batch_size" xxl = Some (VInt 16) /\
    dict_lookup "lr_warmup_steps" xxl = Some (VInt 150).
Proof.
  split; [reflexivity|].
  destruct (derive_xxl_overrides sample_xl eq_refl)
    as (xxl & e & b & w & Hr & He & Hb & Hw & Hepochs & Hbatch & _ & _ & _ & Hwarm & _).
  cbn in He, Hb, Hw. injection He as <-. injection Hb as <-. injection Hw as <-.
  exists xxl. split; [exact Hr|]. split; [exact Hepochs|].
  split; [exact Hbatch|exact Hwarm].
Defined.

Lemma xxs_optimizer_args_rule_witness :
  derive_xxs sample_repr_float scenario_xs = Ok scenario_xxs_built /\
  dict_lookup "optimizer_args" scenario_xxs_built =
  Some (VList [VStr "betas=(0.9, 0.999)"; VStr "weight_decay=0.0002";
               VStr "eps=1e-08"]).
Proof.
  assert (E : derive_xxs sample_repr_float scenario_xs = Ok scenario_xxs_built)
    by (vm_compute; reflexivity).
  split; [exact E|].
  exact (proj1 (xxs_optimizer_args_rule sample_repr_float)
           scenario_xs scenario_xxs_built E).
Defined.

Lemma skip_on_absence_witness :
  ConfigTable_typed table_no_xl = true /\
  dict_lookup "xl" table_no_xl = None /\
  exists table',
    augment sample_repr_float (VDict table_no_xl) = Ok (VDict table') /\
    dict_has "xxl" table' = false.
Proof.
  split; [reflexivity|]. split; [reflexivity|].
  destruct (proj2 (skip_on_absence sample_repr_float) table_no_xl
              eq_refl (or_introl eq_refl)) as (table' & H & Hxxl).
  exists table'. split; [exact H|exact Hxxl].
Defined.

Lemma partial_presence_witness :
  dict_wf table_old_xxl /\
  ConfigTable_typed table_old_xxl = true /\
  dict_has "xs" table_old_xxl = true /\
  dict_lookup "xxl" table_old_xxl = Some (VDict [("max_train_epochs", VInt 99)]) /\
  exists L table',
    derive_xxl sample_xl = Ok L /\
    augment sample_repr_float (VDict table_old_xxl) = Ok (VDict table') /\
    dict_lookup "xxl" table' = Some (VDict L).
Proof.
  split; [apply distinct_keys_wf; reflexivity|].
  do 3 (split; [reflexivity|]).
  apply (proj1 (partial_presence sample_repr_float table_old_xxl
                  (distinct_keys_wf table_old_xxl eq_refl) eq_refl eq_refl)
           eq_refl (VDict [("max_train_epochs", VInt 99)]) sample_xl
           eq_refl eq_refl).
  discriminate.
Defined.

(** C4.  On a table that has [xs], [xl] and an [xxl] tier of its own but
    no [xxs], the loop body derives both tiers; the derived [xxl] is stored
    under the key the table has already, which keeps its place, so that in
    the result it is the second entry, after the new [xxs] and before [xs]
    and [xl], and the last entry is [xl]. *)
Theorem rederived_xxl_keeps_its_place :
  exists xxs xxl,
    derive_xxs sample_repr_float scenario_xs = Ok xxs /\
    derive_xxl sample_xl = Ok xxl /\
    keys table_old_xxl = ["xxl"; "xs"; "xl"] /\
    dict_lookup "xxl" table_old_xxl <> Some (VDict xxl) /\
    augment sample_repr_float (VDict table_old_xxl) =
      Ok (VDict [("xxs", VDict xxs); ("xxl", VDict xxl);
                 ("xs", VDict scenario_xs); ("xl", VDict sample_xl)]).
Proof.
  destruct (derive_xxs sample_repr_float scenario_xs) as [xxs|e] eqn:Es;
    [|vm_compute in Es; discriminate].
  destruct (derive_xxl sample_xl) as [xxl|e] eqn:El;
    [|vm_compute in El; discriminate].
  exists xxs, xxl.
  vm_compute in Es. injection Es as <-.
  vm_compute in El. injection El as <-.
  split; [reflexivity|]. split; [reflexivity|]. split; [reflexivity|].
  split; [discriminate|].
  vm_compute. reflexivity.
Qed.

(** * Further properties of the loop body *)

(** ** Exceptions *)

Section Exceptions.

Variable repr_float : float -> string.

Lemma derived_tier_no_copy (derive : dict -> result dict) (v : value) :
  has_copy v = false -> derived_tier derive v = Raise AttributeError.
Proof. destruct v; simpl; try discriminate; reflexivity. Qed.

Lemma derived_tier_list (derive : dict -> result dict) (x : value) (l : list value) :
  derived_tier derive (VList (x :: l)) = Raise AttributeError.
Proof. reflexivity. Qed.




(** X1.  On a table that has an [xs] key and lacks [xxs] or [xxl], a source
    tier that is not a dictionary makes the loop body raise
    [AttributeError]: [xs] when it is a scalar ([copy] is missing) or a
    non-empty list ([get] is missing), whatever [xl] is; and [xl] likewise
    once the [xs] tier has been dealt with.  Empty lists pass for empty
    tiers: with both sources empty lists the table is returned as it is. *)
Theorem tier_not_a_dictionary :
  forall table : dict,
    dict_has "xs" table = true ->
    (dict_has "xxs" table && dict_has "xxl" table)%bool = false ->
    let xs := dict_get "xs" (VDict []) table in
    let xl := dict_get "xl" (VDict []) table in
    (has_copy xs = false ->
     augment repr_float (VDict table) = Raise AttributeError) /\
    (forall x l, xs = VList (x :: l) ->
     augment repr_float (VDict table) = Raise AttributeError) /\
    (forall xxs, derived_tier (derive_xxs repr_float) xs = Ok xxs ->
     has_copy xl = false ->
     augment repr_float (VDict table) = Raise AttributeError) /\
    (forall xxs x l, derived_tier (derive_xxs repr_float) xs = Ok xxs ->
     xl = VList (x :: l) ->
     augment repr_float (VDict table) = Raise AttributeError) /\
    (xs = VList [] -> xl = VList [] ->
     augment repr_float (VDict table) = Ok (VDict table)).
Proof.
  intros table Hxs Hboth xs xl. rewrite augment_runs by assumption.
  fold xs xl. repeat split.
  - intros H. rewrite derived_tier_no_copy by exact H. reflexivity.
  - intros x l ->. reflexivity.
  - intros xxs -> H. cbn [bind]. rewrite derived_tier_no_copy by exact H.
    reflexivity.
  - intros xxs x l -> ->. reflexivity.
  - intros -> ->. reflexivity.
Qed.


End Exceptions.

(** ** Keys of a derived tier *)

Lemma grown_by_refl (ws : list string) (d : dict) : grown_by ws d d.
Proof.
  split; [exists []; rewrite app_nil_r; split; [reflexivity|intros x []]|].
  split; auto.
Qed.

Lemma grown_by_trans (ws : list string) (d1 d2 d3 : dict) :
  grown_by ws d1 d2 -> grown_by ws d2 d3 -> grown_by ws d1 d3.
Proof.
  intros ([e1 [K1 I1]] & L1 & W1) ([e2 [K2 I2]] & L2 & W2).
  split; [|split].
  - exists (e1 ++ e2). split; [rewrite K2, K1, app_assoc; reflexivity|].
    apply incl_app; assumption.
  - intros k Hk. rewrite L2, L1 by exact Hk. reflexivity.
  - auto.
Qed.

Lemma grown_by_set (ws : list string) (k : string) (v : value) (d : dict) :
  In k ws -> grown_by ws d (dict_set k v d).
Proof.
  intros Hin. split; [|split].
  - rewrite keys_dict_set. destruct (dict_has k d).
    + exists []. rewrite app_nil_r. split; [reflexivity|intros x []].
    + exists [k]. split; [reflexivity|]. intros x [<-|[]]. exact Hin.
  - intros k' Hk'. rewrite dict_lookup_set.
    destruct (String.eqb_spec k' k); [subst; contradiction|reflexivity].
  - apply dict_set_wf.
Qed.

Lemma grown_by_scale (ws : list string) (k : string) (f : float) (d d' : dict) :
  In k ws -> scale_if_present k f d = Ok d' -> grown_by ws d d'.
Proof.
  intros Hin. unfold scale_if_present.
  destruct (dict_lookup k d) as [v|]; [|intros [= <-]; apply grown_by_refl].
  destruct (py_mul_float v f); [|discriminate].
  intros [= <-]. apply grown_by_set, Hin.
Qed.

Lemma grown_by_scale_and_cap (ws : list string) (k : string) (c f : float)
  (d d' : dict) :
  In k ws -> scale_and_cap_if_present k c f d = Ok d' -> grown_by ws d d'.
Proof.
  intros Hin. unfold scale_and_cap_if_present.
  destruct (dict_lookup k d) as [v|]; [|intros [= <-]; apply grown_by_refl].
  destruct (py_mul_float v f); [|discriminate].
  intros [= <-]. apply grown_by_set, Hin.
Qed.

(** One more store on top of a dictionary already grown. *)
Ltac grow_step :=
  first
    [ eapply grown_by_trans;
      [|apply grown_by_set; simpl; tauto]
    | apply grown_by_refl ].

Lemma derive_xxs_grows (repr_float : float -> string) (xs xxs : dict) :
  derive_xxs repr_float xs = Ok xxs -> grown_by xxs_written_keys xs xxs.
Proof.
  unfold derive_xxs.
  destruct (py_add_int _ 7) as [e|]; [|discriminate]. cbn [bind].
  destruct (scale_if_present "unet_lr" _ _) as [c1|] eqn:E1; [|discriminate].
  cbn [bind].
  destruct (scale_if_present "text_encoder_lr" _ _) as [c2|] eqn:E2;
    [|discriminate].
  cbn [bind]. intros [= <-].
  apply grown_by_scale with (ws := xxs_written_keys) in E1; [|simpl; tauto].
  apply grown_by_scale with (ws := xxs_written_keys) in E2; [|simpl; tauto].
  assert (H2 : grown_by xxs_written_keys xs c2).
  { eapply grown_by_trans; [|exact E2].
    eapply grown_by_trans; [|exact E1].
    repeat grow_step. }
  destruct (mentions_weight_decay repr_float _); repeat grow_step; exact H2.
Qed.

Lemma derive_xxl_grows (xl xxl : dict) :
  derive_xxl xl = Ok xxl -> grown_by xxl_written_keys xl xxl.
Proof.
  unfold derive_xxl.
  destruct (py_sub_int _ 3) as [e|]; [|discriminate]. cbn [bind].
  destruct (py_add_int _ 4) as [b|]; [|discriminate]. cbn [bind].
  destruct (scale_and_cap_if_present "unet_lr" _ _ _) as [c1|] eqn:E1;
    [|discriminate].
  cbn [bind].
  destruct (scale_and_cap_if_present "text_encoder_lr" _ _ _) as [c2|] eqn:E2;
    [|discriminate].
  cbn [bind].
  destruct (py_add_int _ 30) as [w|]; [|discriminate]. cbn [bind].
  intros [= <-].
  apply grown_by_scale_and_cap with (ws := xxl_written_keys) in E1; [|simpl; tauto].
  apply grown_by_scale_and_cap with (ws := xxl_written_keys) in E2; [|simpl; tauto].
  assert (H2 : grown_by xxl_written_keys xl c2).
  { eapply grown_by_trans; [|exact E2].
    eapply grown_by_trans; [|exact E1].
    repeat grow_step. }
  repeat grow_step; exact H2.
Qed.

(** X3.  Whenever a derivation returns, on any tier, the keys of the source
    tier come first in the derived tier and in the same order, the keys
    that follow are among those the derivation stores to, every field
    under another key is the field of the source, and distinct keys stay
    distinct. *)
Theorem derived_tier_keeps_source_keys :
  forall repr_float : float -> string,
    (forall xs xxs : dict,
       derive_xxs repr_float xs = Ok xxs ->
       (exists extra, keys xxs = keys xs ++ extra /\ incl extra xxs_written_keys) /\
       (forall k, ~ In k xxs_written_keys -> dict_lookup k xxs = dict_lookup k xs) /\
       (dict_wf xs -> dict_wf xxs)) /\
    (forall xl xxl : dict,
       derive_xxl xl = Ok xxl ->
       (exists extra, keys xxl = keys xl ++ extra /\ incl extra xxl_written_keys) /\
       (forall k, ~ In k xxl_written_keys -> dict_lookup k xxl = dict_lookup k xl) /\
       (dict_wf xl -> dict_wf xxl)).
Proof.
  intros repr_float. split.
  - intros xs xxs H. exact (derive_xxs_grows repr_float xs xxs H).
  - intros xl xxl H. exact (derive_xxl_grows xl xxl H).
Qed.

(** ** Bounds of the derived [xxl] tier *)

Lemma float_ltb_leb (x y : float) :
  (x <? y)%float = true -> (x <=? y)%float = true.
Proof.
  rewrite ltb_spec, leb_spec. unfold SFltb, SFleb.
  destruct (SFcompare (Prim2SF x) (Prim2SF y)) as [[]|]; congruence.
Qed.

Lemma py_min_float_le (c x : float) :
  (c <=? c)%float = true -> (py_min_float c x <=? c)%float = true.
Proof.
  intros Hc. unfold py_min_float.
  destruct (x <? c)%float eqn:E; [apply float_ltb_leb, E|exact Hc].
Qed.

Lemma py_max_int_ge (a : num) : num_ge_int (py_max_int 8 a) 8 = true.
Proof.
  destruct a as [n|x]; simpl.
  - destruct (Z.ltb_spec 8 n); simpl; lia.
  - destruct (float_of_small 8 <? x)%float eqn:E; simpl;
      [apply float_ltb_leb, E|reflexivity].
Qed.

Lemma py_min_int_le (a : num) : num_le_int (py_min_int 16 a) 16 = true.
Proof.
  destruct a as [n|x]; simpl.
  - destruct (Z.ltb_spec n 16); simpl; lia.
  - destruct (x <? float_of_small 16)%float eqn:E; simpl;
      [apply float_ltb_leb, E|reflexivity].
Qed.

(** X4.  Whenever the [xxl] derivation returns, whatever numbers the [xl]
    tier holds (integers, booleans, doubles, NaN included), the derived
    [max_train_epochs] is at least 8, the derived [train_batch_size] is at
    most 16, and a derived learning rate is a double that is at most its
    ceiling, 5e-05 for [unet_lr] and 2.5e-06 for [text_encoder_lr]. *)
Theorem xxl_bounds :
  forall xl xxl : dict,
    derive_xxl xl = Ok xxl ->
    (exists epochs, dict_lookup "max_train_epochs" xxl = Some (of_num epochs) /\
                    num_ge_int epochs 8 = true) /\
    (exists batch, dict_lookup "train_batch_size" xxl = Some (of_num batch) /\
                   num_le_int batch 16 = true) /\
    (forall v, dict_lookup "unet_lr" xxl = Some v ->
               exists y, v = VFloat y /\ (y <=? 5e-05)%float = true) /\
    (forall v, dict_lookup "text_encoder_lr" xxl = Some v ->
               exists y, v = VFloat y /\ (y <=? 2.5e-06)%float = true).
Proof.
  intros xl xxl. unfold derive_xxl, scale_and_cap_if_present.
  destruct (py_sub_int _ 3) as [e|]; [|discriminate]. cbn [bind].
  unfold dict_get. read_back.
  destruct (py_add_int _ 4) as [b|]; [|discriminate]. cbn [bind]. read_back.
  destruct (dict_lookup "unet_lr" xl) as [u|] eqn:Eu;
    [destruct (py_mul_float u _) as [x|]; [|discriminate]|];
    cbn [bind]; read_back;
    (destruct (dict_lookup "text_encoder_lr" xl) as [te|] eqn:Ete;
     [destruct (py_mul_float te _) as [y|]; [|discriminate]|]);
    cbn [bind]; read_back;
    (destruct (py_add_int _ 30) as [w|]; [|discriminate]);
    cbn [bind]; intros [= <-]; read_back;
    (split; [eexists; split; [reflexivity|apply py_max_int_ge]|]);
    (split; [eexists; split; [reflexivity|apply py_min_int_le]|]);
    split; intros v Hv; try congruence; injection Hv as <-;
    eexists; (split; [reflexivity|apply py_min_float_le; reflexivity]).
Qed.

(** ** Typed tiers stay typed *)

Lemma forallb_values_set {V : Type} (q : V -> bool) (k : string) (v : V)
  (d : list (string * V)) :
  q v = true ->
  forallb (fun kv => q (snd kv)) d = true ->
  forallb (fun kv => q (snd kv)) (dict_set k v d) = true.
Proof.
  intros Hv. induction d as [|[k0 v0] d IH]; simpl.
  - intros _. rewrite Hv. reflexivity.
  - intros H. apply andb_prop in H as [H0 H].
    destruct (String.eqb k k0); simpl.
    + rewrite Hv, H. reflexivity.
    + rewrite H0, (IH H). reflexivity.
Qed.

Lemma forallb_values_update {V : Type} (q : V -> bool)
  (acc d : list (string * V)) :
  forallb (fun kv => q (snd kv)) acc = true ->
  forallb (fun kv => q (snd kv)) d = true ->
  forallb (fun kv => q (snd kv)) (dict_update acc d) = true.
Proof.
  unfold dict_update. revert acc.
  induction d as [|[k0 v0] d IH]; intros acc Hacc Hd; simpl; [exact Hacc|].
  simpl in Hd. apply andb_prop in Hd as [H0 Hd].
  apply IH; [apply forallb_values_set; assumption|exact Hd].
Qed.

Lemma derive_xxs_typed (repr_float : float -> string) (xs xxs : dict) :
  TierConfig_typed xs = true ->
  derive_xxs repr_float xs = Ok xxs ->
  TierConfig_typed xxs = true.
Proof.
  intros Ht Hr.
  destruct (derive_xxs_lookup repr_float xs Ht) as (xxs' & e & Hr' & _ & Hk).
  rewrite Hr in Hr'. injection Hr' as <-.
  apply typed_fields in Ht as (_ & _ & Hw & Hu & Hte).
  unfold TierConfig_typed, field_ok in *. rewrite !Hk. eqb_literals.
  destruct (dict_lookup "unet_lr" xs) as [[]|]; try discriminate;
    destruct (dict_lookup "text_encoder_lr" xs) as [[]|]; try discriminate;
    destruct (dict_lookup "lr_warmup_steps" xs) as [[]|]; try discriminate;
    reflexivity.
Qed.

Lemma derive_xxl_typed (xl xxl : dict) :
  TierConfig_typed xl = true ->
  derive_xxl xl = Ok xxl ->
  TierConfig_typed xxl = true.
Proof.
  intros Ht Hr.
  destruct (derive_xxl_lookup xl Ht) as (xxl' & e & b & w & Hr' & _ & _ & _ & Hk).
  rewrite Hr in Hr'. injection Hr' as <-.
  apply typed_fields in Ht as (_ & _ & _ & Hu & Hte).
  unfold TierConfig_typed, field_ok in *. rewrite !Hk. eqb_literals.
  destruct (dict_lookup "unet_lr" xl) as [[]|]; try discriminate;
    destruct (dict_lookup "text_encoder_lr" xl) as [[]|]; try discriminate;
    reflexivity.
Qed.

Lemma augment_typed_result (repr_float : float -> string) (table table' : dict) :
  ConfigTable_typed table = true ->
  augment repr_float (VDict table) = Ok (VDict table') ->
  ConfigTable_typed table' = true.
Proof.
  intros Ht H.
  destruct (dict_has "xs" table) eqn:Hxs;
    [|rewrite augment_without_xs in H by exact Hxs; congruence].
  destruct (dict_has "xxs" table && dict_has "xxl" table)%bool eqn:Hboth.
  { apply andb_prop in Hboth as [H1 H2].
    rewrite augment_with_both in H by assumption. congruence. }
  destruct (augment_typed repr_float table Ht Hxs Hboth)
    as (xs & xl & X & L & Exs & Exl & HX & HL & H').
  rewrite H' in H. injection H as <-.
  destruct (typed_tier _ _ _ Ht Exs) as (xs' & [= <-] & Txs).
  destruct (typed_get table "xl" Ht) as (xl' & Exl' & Txl).
  rewrite Exl in Exl'. injection Exl' as <-.
  pose proof (derive_xxs_typed repr_float xs X Txs HX) as TX.
  pose proof (derive_xxl_typed xl L Txl HL) as TL.
  unfold ConfigTable_typed in *.
  assert (H1 : forallb (fun kv : string * value =>
                          match snd kv with
                          | VDict d => TierConfig_typed d
                          | _ => false
                          end)
                 (with_xxs match xs with [] => None | _ => Some X end table) = true).
  { destruct xs; cbn [with_xxs]; [exact Ht|].
    unfold dict_prepend.
    apply (forallb_values_update
             (fun v => match v with VDict d => TierConfig_typed d | _ => false end));
      [simpl; rewrite TX; reflexivity|exact Ht]. }
  destruct xl; cbn [with_xxl]; [exact H1|].
  apply (forallb_values_set
           (fun v => match v with VDict d => TierConfig_typed d | _ => false end));
    [exact TL|exact H1].
Qed.

(** X5.  The derivations and the loop body keep the typing of the data
    model: the tier derived from a typed tier is typed, and the table the
    loop body returns for a typed table is typed, so that a derived tier
    can itself be derived from and an augmented table augmented again
    without a type error. *)
Theorem typing_is_kept :
  forall repr_float : float -> string,
    (forall xs xxs : dict,
       TierConfig_typed xs = true ->
       derive_xxs repr_float xs = Ok xxs ->
       TierConfig_typed xxs = true) /\
    (forall xl xxl : dict,
       TierConfig_typed xl = true ->
       derive_xxl xl = Ok xxl ->
       TierConfig_typed xxl = true) /\
    (forall table table' : dict,
       ConfigTable_typed table = true ->
       augment repr_float (VDict table) = Ok (VDict table') ->
       ConfigTable_typed table' = true).
Proof.
  intros repr_float. split; [exact (derive_xxs_typed repr_float)|].
  split; [exact derive_xxl_typed|exact (augment_typed_result repr_float)].
Qed.

(** * Further properties of the run *)

(** ** One visit, case by case *)

Lemma In_dict_set {V : Type} (k k' : string) (v e : V) (d : list (string * V)) :
  In (k, e) (dict_set k' v d) -> e = v \/ In (k, e) d.
Proof.
  induction d as [|[k0 v0] d IH]; simpl.
  - intros [[= _ <-]|[]]. auto.
  - destruct (String.eqb k' k0); simpl.
    + intros [[= _ <-]|H]; auto.
    + intros [H|H]; [auto|]. destruct (IH H); auto.
Qed.

Lemma In_dict_update {V : Type} (k : string) (e : V) (acc d : list (string * V)) :
  In (k, e) (dict_update acc d) ->
  (exists k', In (k', e) acc) \/ (exists k', In (k', e) d).
Proof.
  unfold dict_update. revert acc.
  induction d as [|[k0 v0] d IH]; intros acc; simpl; [eauto|].
  intros H. destruct (IH _ H) as [[k' H']|[k' H']].
  - apply In_dict_set in H' as [->|H']; [right; eauto|left; eauto].
  - right. eauto.
Qed.

Lemma refs_below_mono (n m : nat) (t : table) :
  (n <= m)%nat -> refs_below n t -> refs_below m t.
Proof. intros Hle H k a Hin. specialize (H k a Hin). lia. Qed.

Lemma refs_below_set (n : nat) (k : string) (a : addr) (t : table) :
  (a < n)%nat -> refs_below n t -> refs_below n (dict_set k (Obj a) t).
Proof.
  intros Ha H k' a' Hin. apply In_dict_set in Hin as [[= ->]|Hin];
    [exact Ha|apply (H k' a' Hin)].
Qed.

Lemma refs_below_prepend (n : nat) (k : string) (a : addr) (t : table) :
  (a < n)%nat -> refs_below n t -> refs_below n (dict_prepend k (Obj a) t).
Proof.
  intros Ha H k' a' Hin. apply In_dict_update in Hin as [[k2 Hin]|[k2 Hin]].
  - destruct Hin as [[= _ ->]|[]]. exact Ha.
  - apply (H k2 a' Hin).
Qed.

Lemma Forall_list_set {A : Type} (P : A -> Prop) (i : nat) (x : A) (l : list A) :
  P x -> Forall P l -> Forall P (list_set i x l).
Proof.
  intros Hx H. revert i. induction H as [|y l Hy H IH]; intros [|i]; simpl;
    constructor; auto.
Qed.

Lemma nth_list_set_other {A : Type} (i j : nat) (x d : A) (l : list A) :
  i <> j -> nth j (list_set i x l) d = nth j l d.
Proof.
  revert i j. induction l as [|y l IH]; intros [|i] [|j] Hne; simpl;
    try reflexivity; try congruence.
  apply IH. congruence.
Qed.

Lemma In_table_refs (a : addr) (d : table) :
  In a (table_refs d) <-> exists k, In (k, Obj a) d.
Proof.
  unfold table_refs. rewrite in_flat_map. split.
  - intros ([k [a'|o]] & Hin & Ha); simpl in Ha; [|contradiction].
    destruct Ha as [->|[]]. eauto.
  - intros [k Hin]. exists (k, Obj a). simpl. auto.
Qed.

Lemma dict_set_same {V : Type} (k : string) (v : V) (d : list (string * V)) :
  dict_lookup k d = Some v -> dict_set k v d = d.
Proof.
  induction d as [|[k0 v0] d IH]; simpl; [discriminate|].
  destruct (String.eqb k k0).
  - intros [= ->]. reflexivity.
  - intros H. rewrite (IH H). reflexivity.
Qed.

Lemma table_refs_set_fresh (h : string) (c : addr) (d : table) :
  ~ In c (table_refs d) ->
  NoDup (table_refs d) ->
  NoDup (table_refs (dict_set h (Obj c) d)).
Proof.
  induction d as [|[k0 v0] d IH]; simpl; intros Hc Hnd.
  - repeat constructor. intros [].
  - rewrite in_app_iff in Hc. apply NoDup_app_remove_l in Hnd as Hrest.
    destruct (String.eqb h k0); simpl.
    + constructor; [tauto|exact Hrest].
    + destruct v0 as [a|o]; simpl in *; [|apply IH; tauto].
      inversion Hnd as [|? ? Ha Hnd']; subst.
      constructor; [|apply IH; tauto].
      intros Hin. apply In_table_refs in Hin as [k Hin].
      apply In_dict_set in Hin as [[= ->]|Hin]; [tauto|].
      apply Ha, In_table_refs. eauto.
Qed.

Lemma shared_table (k h : string) (a : addr) (d : table) :
  NoDup (table_refs d) ->
  dict_lookup k d = Some (Obj a) ->
  dict_lookup h d = Some (Obj a) ->
  k = h.
Proof.
  induction d as [|[k0 v0] d IH]; simpl; [discriminate|].
  intros Hnd Hk Hh. apply NoDup_app_remove_l in Hnd as Hrest.
  destruct (String.eqb_spec k k0) as [->|Hk0];
    destruct (String.eqb_spec h k0) as [->|Hh0]; auto.
  - injection Hk as ->. simpl in Hnd. inversion Hnd as [|? ? Ha _]; subst.
    exfalso. apply Ha, In_table_refs.
    destruct (dict_lookup_In _ _ _ Hh) as [k' Hin]. eauto.
  - injection Hh as ->. simpl in Hnd. inversion Hnd as [|? ? Ha _]; subst.
    exfalso. apply Ha, In_table_refs.
    destruct (dict_lookup_In _ _ _ Hk) as [k' Hin]. eauto.
Qed.

Lemma Forall_refs_mono (n m : nat) (l : list table) :
  (n <= m)%nat -> Forall (refs_below n) l -> Forall (refs_below m) l.
Proof.
  intros Hle H. eapply Forall_impl; [|exact H].
  intros t. apply refs_below_mono, Hle.
Qed.

Lemma lookup_ref_below (n : nat) (k : string) (a : addr) (d : table) :
  refs_below n d -> dict_lookup k d = Some (Obj a) -> (a < n)%nat.
Proof.
  intros H Hk. destruct (dict_lookup_In _ _ _ Hk) as [k' Hin].
  apply (H k' a Hin).
Qed.

Lemma read_table_refs (s : store) (t : addr) :
  store_wf s -> (t < List.length (tables s))%nat ->
  refs_below (List.length (tiers s)) (read_table s t).
Proof.
  intros [Htables _] Ht. rewrite Forall_forall in Htables.
  apply Htables. unfold read_table. apply nth_In, Ht.
Qed.

Section VisitKeeps.

Variable repr_float : float -> string.

Lemma visit_not_a_table (h : string) (s : store) :
  (forall t, dict_lookup h (data s) <> Some (Obj t)) ->
  visit repr_float h s = Ok s.
Proof.
  intros H. unfold visit.
  destruct (dict_lookup h (data s)) as [[t|o]|]; try reflexivity.
  exfalso. apply (H t). reflexivity.
Qed.

(** What a visit keeps of the store: allocated references, unshared
    tables, the tables of the other models and their registry entries. *)
Lemma visit_keeps (h : string) (t : addr) (s s' : store) :
  store_wf s ->
  NoDup (table_refs (data s)) ->
  dict_lookup h (data s) = Some (Obj t) ->
  visit repr_float h s = Ok s' ->
  store_wf s' /\
  NoDup (table_refs (data s')) /\
  (forall a, a <> t -> (a < List.length (tables s))%nat ->
             read_table s' a = read_table s a) /\
  (forall k, k <> h -> dict_lookup k (data s') = dict_lookup k (data s)).
Proof.
  intros Hwf Hnd Ek.
  assert (Ht : (t < List.length (tables s))%nat)
    by (apply (lookup_ref_below _ h t (data s)); [apply Hwf|exact Ek]).
  pose proof (read_table_refs s t Hwf Ht) as Hrefs.
  destruct Hwf as [Htables Hdata].
  assert (Hfresh : ~ In (List.length (tables s)) (table_refs (data s))).
  { intros Hin. apply In_table_refs in Hin as [k Hin].
    specialize (Hdata k _ Hin). lia. }
  unfold visit. rewrite Ek.
  set (tb := read_table s t) in *.
  destruct (dict_has "xs" tb); [|intros [= <-]; repeat split; auto].
  destruct (dict_has "xxs" tb && dict_has "xxl" tb)%bool;
    [intros [= <-]; repeat split; auto|].
  destruct (derived_tier (derive_xxs repr_float) _) as [xxs|]; [|discriminate].
  cbn [bind].
  destruct xxs as [c|].
  - unfold alloc_tier, alloc_table. cbn [tiers tables data].
    destruct (derived_tier derive_xxl _) as [xxl|]; [|discriminate].
    cbn [bind]. intros [= <-].
    destruct xxl as [l|];
      unfold write_data, write_table, alloc_tier, read_table;
      cbn [tiers tables data].
    + rewrite nth_length_app.
      split; [split; cbn [tiers tables data]|split; [|split]].
      * apply Forall_list_set.
        -- apply refs_below_set; [rewrite !length_app; simpl; lia|].
           apply refs_below_prepend; [rewrite !length_app; simpl; lia|].
           apply (refs_below_mono _ _ _ (Nat.le_refl _)).
           apply (refs_below_mono (List.length (tiers s))); [|exact Hrefs].
           rewrite !length_app; simpl; lia.
        -- apply Forall_app. split.
           ++ apply (Forall_refs_mono (List.length (tiers s)));
                [rewrite !length_app; simpl; lia|exact Htables].
           ++ constructor; [|constructor].
              apply refs_below_prepend; [rewrite !length_app; simpl; lia|].
              apply (refs_below_mono (List.length (tiers s))); [|exact Hrefs].
              rewrite !length_app; simpl; lia.
      * rewrite length_list_set, length_app. simpl.
        apply refs_below_set; [lia|].
        apply (refs_below_mono (List.length (tables s))); [lia|exact Hdata].
      * apply table_refs_set_fresh; assumption.
      * intros a Ha Hlt.
        rewrite nth_list_set_other by lia. apply nth_app_old, Hlt.
      * intros k Hk. rewrite dict_lookup_set.
        destruct (String.eqb_spec k h); [contradiction|reflexivity].
    + split; [split; cbn [tiers tables data]|split; [|split]].
      * apply Forall_app. split.
        -- apply (Forall_refs_mono (List.length (tiers s)));
             [rewrite !length_app; simpl; lia|exact Htables].
        -- constructor; [|constructor].
           apply refs_below_prepend; [rewrite !length_app; simpl; lia|].
           apply (refs_below_mono (List.length (tiers s))); [|exact Hrefs].
           rewrite !length_app; simpl; lia.
      * rewrite length_app. simpl.
        apply refs_below_set; [lia|].
        apply (refs_below_mono (List.length (tables s))); [lia|exact Hdata].
      * apply table_refs_set_fresh; assumption.
      * intros a Ha Hlt. apply nth_app_old, Hlt.
      * intros k Hk. rewrite dict_lookup_set.
        destruct (String.eqb_spec k h); [contradiction|reflexivity].
  - destruct (derived_tier derive_xxl _) as [xxl|]; [|discriminate].
    cbn [bind]. intros [= <-].
    destruct xxl as [l|];
      unfold write_data, write_table, alloc_tier, read_table;
      cbn [tiers tables data];
      rewrite (dict_set_same h (Obj t) (data s) Ek).
    + split; [split; cbn [tiers tables data]|split; [|split]].
      * apply Forall_list_set.
        -- apply refs_below_set; [rewrite !length_app; simpl; lia|].
           apply (refs_below_mono (List.length (tiers s))); [|exact Hrefs].
           rewrite !length_app; simpl; lia.
        -- apply (Forall_refs_mono (List.length (tiers s)));
             [rewrite !length_app; simpl; lia|exact Htables].
      * rewrite length_list_set. exact Hdata.
      * exact Hnd.
      * intros a Ha Hlt. apply nth_list_set_other. congruence.
      * reflexivity.
    + split; [split; cbn [tiers tables data]; assumption|].
      split; [exact Hnd|]. split; reflexivity.
Qed.

End VisitKeeps.

(** ** The whole run, read back as values *)

Lemma model_value_kept (s s' : store) (e : entry) :
  store_wf s ->
  (exists more, tiers s' = tiers s ++ more) ->
  (forall t, e = Obj t ->
             (t < List.length (tables s))%nat /\ read_table s' t = read_table s t) ->
  model_value s' e = model_value s e.
Proof.
  intros Hwf Hm He. destruct e as [t|o]; [|reflexivity].
  destruct (He t eq_refl) as [Ht Hr]. cbn [model_value]. rewrite Hr. f_equal.
  apply table_value_extends; [apply read_table_refs; assumption|exact Hm].
Qed.

Section RunFacts.

Variable repr_float : float -> string.

(** The models visited so far hold what [augment] makes of their first
    value; the others are as they were. *)
Lemma visits_refine (s0 : store) (ks : list string) :
  store_wf s0 ->
  forall si : store,
    NoDup ks ->
    store_wf si ->
    NoDup (table_refs (data si)) ->
    (exists more, tiers si = tiers s0 ++ more) ->
    keys (data si) = keys (data s0) ->
    (forall k, In k ks ->
       dict_lookup k (data si) = dict_lookup k (data s0) /\
       forall t, dict_lookup k (data s0) = Some (Obj t) ->
                 read_table si t = read_table s0 t) ->
    (forall k e0, ~ In k ks -> dict_lookup k (data s0) = Some e0 ->
       exists T' ei, augment repr_float (model_value s0 e0) = Ok T' /\
                     dict_lookup k (data si) = Some ei /\
                     model_value si ei = T') ->
    match fold_left (fun acc model_hash =>
                       s'' <- acc ;; visit repr_float model_hash s'')
                    ks (Ok si) with
    | Ok s' =>
        store_wf s' /\
        NoDup (table_refs (data s')) /\
        keys (data s') = keys (data s0) /\
        forall k e0, dict_lookup k (data s0) = Some e0 ->
          exists T' e', augment repr_float (model_value s0 e0) = Ok T' /\
                        dict_lookup k (data s') = Some e' /\
                        model_value s' e' = T'
    | Raise x =>
        exists before k after e0,
          ks = before ++ k :: after /\
          dict_lookup k (data s0) = Some e0 /\
          augment repr_float (model_value s0 e0) = Raise x /\
          forall k' e', In k' before -> dict_lookup k' (data s0) = Some e' ->
            exists T', augment repr_float (model_value s0 e') = Ok T'
    end.
Proof.
  intros Hwf0.
  induction ks as [|h ks IH]; intros si Hnd Hwf Hrefs Hm Hkeys Htodo Hdone.
  - simpl. split; [exact Hwf|]. split; [exact Hrefs|]. split; [exact Hkeys|].
    intros k e0 He0. apply (Hdone k e0); [intros []|exact He0].
  - inversion Hnd as [|? ? Hh Hnd']; subst. cbn [fold_left bind].
    destruct (Htodo h (or_introl eq_refl)) as [Eh Hth].
    destruct (dict_lookup h (data s0)) as [[t|o]|] eqn:Eh0.
    + (* the model is a table *)
      assert (Ht0 : (t < List.length (tables s0))%nat)
        by (apply (lookup_ref_below _ h t (data s0)); [apply Hwf0|exact Eh0]).
      assert (Hval : model_value si (Obj t) = model_value s0 (Obj t)).
      { cbn [model_value]. rewrite (Hth t eq_refl). f_equal.
        apply table_value_extends;
          [apply read_table_refs; assumption|exact Hm]. }
      pose proof (visit_refines_augment repr_float si h (Obj t) Hwf Eh) as Hv.
      rewrite Hval in Hv.
      destruct (augment repr_float (model_value s0 (Obj t))) as [T'|x] eqn:Ea.
      * destruct Hv as (sj & e' & Evisit & Ee' & Hval').
        rewrite Evisit.
        destruct (visit_keeps repr_float h t si sj Hwf Hrefs Eh Evisit)
          as (Hwfj & Hrefsj & Htabs & Hdata).
        destruct (visit_frame repr_float h si sj Evisit)
          as (Hmj & _ & _ & Hkeysj & _).
        assert (Hm' : exists more, tiers sj = tiers s0 ++ more).
        { destruct Hm as [m1 E1], Hmj as [m2 E2]. exists (m1 ++ m2).
          rewrite E2, E1, app_assoc. reflexivity. }
        specialize (IH sj Hnd' Hwfj Hrefsj Hm').
        assert (Hother : forall k c, k <> h ->
                  dict_lookup k (data si) = Some (Obj c) ->
                  (c < List.length (tables si))%nat /\
                  read_table sj c = read_table si c).
        { intros k c Hk Hc.
          assert (Hlt : (c < List.length (tables si))%nat)
            by (apply (lookup_ref_below _ k c (data si)); [apply Hwf|exact Hc]).
          split; [exact Hlt|]. apply Htabs; [|exact Hlt].
          intros ->. apply Hk. apply (shared_table k h t (data si)); assumption. }
        match type of IH with
        | ?A -> ?B -> ?C -> _ =>
            assert (HA : A); [|assert (HB : B); [|assert (HC : C)]]
        end.
        -- congruence.
        -- intros k Hk.
           assert (Hkh : k <> h) by (intros ->; contradiction).
           destruct (Htodo k (or_intror Hk)) as [Ek Htk].
           split; [rewrite Hdata by exact Hkh; exact Ek|].
           intros c Hc. rewrite <- (Htk c Hc).
           apply (Hother k c Hkh). rewrite Ek. exact Hc.
        -- intros k e0 Hk He0.
           destruct (String.eqb_spec k h) as [->|Hkh].
           ++ rewrite Eh0 in He0. injection He0 as <-.
              exists T', e'. auto.
           ++ destruct (Hdone k e0) as (T0 & ei & Ha0 & Ei & Hvi);
                [intros [E|Hin]; [congruence|contradiction]|exact He0|].
              exists T0, ei. split; [exact Ha0|].
              split; [rewrite Hdata by exact Hkh; exact Ei|].
              rewrite <- Hvi. apply model_value_kept; [exact Hwf|exact Hmj|].
              intros c ->. apply (Hother k c Hkh Ei).
        -- specialize (IH HA HB HC).
           destruct (fold_left _ ks (Ok sj)) as [s'|x]; [exact IH|].
           destruct IH as (before & k & after & e0 & -> & He0 & Hx & Hbefore).
           exists (h :: before), k, after, e0.
           split; [reflexivity|]. split; [exact He0|]. split; [exact Hx|].
           intros k' e1 [<-|Hin] He1; [|apply (Hbefore k' e1 Hin He1)].
           rewrite Eh0 in He1. injection He1 as <-. eauto.
      * rewrite Hv, visits_raise.
        exists [], h, ks, (Obj t). repeat split; auto.
        intros k' e1 [].
    + (* the model is not a dictionary *)
      rewrite visit_not_a_table by (intros t; rewrite Eh; discriminate).
      specialize (IH si Hnd' Hwf Hrefs Hm Hkeys).
      match type of IH with
      | ?B -> ?C -> _ => assert (HB : B); [|assert (HC : C)]
      end.
      * intros k Hk. apply Htodo. simpl. auto.
      * intros k e0 Hk He0.
        destruct (String.eqb_spec k h) as [->|Hkh];
          [|apply Hdone;
            [intros [E|Hin]; [congruence|contradiction]|exact He0]].
        rewrite Eh0 in He0. injection He0 as <-.
        exists (value_of_nondict o), (Imm o).
        split; [apply value_of_nondict_augment|]. split; [exact Eh|reflexivity].
      * specialize (IH HB HC).
        destruct (fold_left _ ks (Ok si)) as [s'|x]; [exact IH|].
        destruct IH as (before & k & after & e0 & -> & He0 & Hx & Hbefore).
        exists (h :: before), k, after, e0.
        split; [reflexivity|]. split; [exact He0|]. split; [exact Hx|].
        intros k' e1 [<-|Hin] He1; [|apply (Hbefore k' e1 Hin He1)].
        rewrite Eh0 in He1. injection He1 as <-.
        exists (value_of_nondict o). apply value_of_nondict_augment.
    + (* no such model *)
      rewrite visit_not_a_table by (intros t; rewrite Eh; discriminate).
      specialize (IH si Hnd' Hwf Hrefs Hm Hkeys).
      match type of IH with
      | ?B -> ?C -> _ => assert (HB : B); [|assert (HC : C)]
      end.
      * intros k Hk. apply Htodo. simpl. auto.
      * intros k e0 Hk He0.
        destruct (String.eqb_spec k h) as [->|Hkh];
          [congruence
          |apply Hdone; [intros [E|Hin]; [congruence|contradiction]|exact He0]].
      * specialize (IH HB HC).
        destruct (fold_left _ ks (Ok si)) as [s'|x]; [exact IH|].
        destruct IH as (before & k & after & e0 & -> & He0 & Hx & Hbefore).
        exists (h :: before), k, after, e0.
        split; [reflexivity|]. split; [exact He0|]. split; [exact Hx|].
        intros k' e1 [<-|Hin] He1; [congruence|apply (Hbefore k' e1 Hin He1)].
Qed.

(** The run on a tree-shaped store. *)
Lemma run_refines (s : store) :
  tree_shaped s ->
  match add_enhanced_tiers repr_float s with
  | Ok s' =>
      tree_shaped s' /\
      keys (data s') = keys (data s) /\
      forall k e, dict_lookup k (data s) = Some e ->
        exists T' e', augment repr_float (model_value s e) = Ok T' /\
                      dict_lookup k (data s') = Some e' /\
                      model_value s' e' = T'
  | Raise x =>
      exists before k after e,
        keys (data s) = before ++ k :: after /\
        dict_lookup k (data s) = Some e /\
        augment repr_float (model_value s e) = Raise x /\
        forall k' e', In k' before -> dict_lookup k' (data s) = Some e' ->
          exists T', augment repr_float (model_value s e') = Ok T'
  end.
Proof.
  intros (Hwf & Hkeys & Hrefs). unfold add_enhanced_tiers.
  pose proof (visits_refine s (keys (data s)) Hwf s Hkeys Hwf Hrefs) as H.
  match type of H with
  | ?A -> ?B -> ?C -> ?D -> _ =>
      assert (HA : A); [|assert (HB : B); [|assert (HC : C); [|assert (HD : D)]]]
  end.
  - exists []. rewrite app_nil_r. reflexivity.
  - reflexivity.
  - intros k _. split; reflexivity.
  - intros k e0 Hk He0. exfalso. apply Hk.
    apply dict_has_In. rewrite dict_has_lookup, He0. reflexivity.
  - specialize (H HA HB HC HD).
    destruct (fold_left _ (keys (data s)) (Ok s)) as [s'|x]; [|exact H].
    destruct H as (Hwf' & Hrefs' & Hkeys' & Hvals).
    split; [|split; assumption].
    split; [exact Hwf'|]. split; [|exact Hrefs'].
    unfold dict_wf. rewrite Hkeys'. exact Hkeys.
Qed.

End RunFacts.

(** ** Consequences for the run *)

Lemma keys_map_values {A B : Type} (f : A -> B) (d : list (string * A)) :
  keys (map_values f d) = keys d.
Proof.
  unfold keys, map_values. rewrite map_map. apply map_ext. reflexivity.
Qed.

Lemma lookup_none_keys {A B : Type} (k : string)
  (d : list (string * A)) (d' : list (string * B)) :
  keys d = keys d' -> dict_lookup k d = None -> dict_lookup k d' = None.
Proof.
  revert d'. induction d as [|[k0 v0] d IH]; intros [|[k1 v1] d'] Hk;
    simpl in *; try discriminate; auto.
  injection Hk as <- Hk. destruct (String.eqb k k0); [discriminate|].
  apply IH, Hk.
Qed.

Lemma lookup_some_keys {A B : Type} (k : string) (v : A)
  (d : list (string * A)) (d' : list (string * B)) :
  keys d = keys d' -> dict_lookup k d = Some v ->
  exists v', dict_lookup k d' = Some v'.
Proof.
  intros Hk Hv. destruct (dict_lookup k d') as [v'|] eqn:E; [eauto|].
  rewrite (lookup_none_keys k d' d (eq_sym Hk) E) in Hv. discriminate.
Qed.

(** Two dictionaries with the same keys in the same order and the same
    value under each key are equal. *)
Lemma dict_ext {V : Type} (d d' : list (string * V)) :
  dict_wf d ->
  keys d = keys d' ->
  (forall k, dict_lookup k d = dict_lookup k d') ->
  d = d'.
Proof.
  unfold dict_wf. revert d'.
  induction d as [|[k0 v0] d IH]; intros [|[k1 v1] d'] Hwf Hk Hl;
    simpl in *; try discriminate; [reflexivity|].
  injection Hk as <- Hk. inversion Hwf as [|? ? Hnot Hwf']; subst.
  pose proof (Hl k0) as H0. rewrite String.eqb_refl in H0. injection H0 as <-.
  f_equal. apply IH; [exact Hwf'|exact Hk|].
  intros k. specialize (Hl k).
  destruct (String.eqb_spec k k0) as [Ek|Hne]; [clear Hl; rewrite Ek|exact Hl].
  assert (Hn : dict_lookup k0 d = None).
  { apply dict_has_false_lookup. destruct (dict_has k0 d) eqn:E; [|reflexivity].
    apply dict_has_In in E. contradiction. }
  rewrite Hn. symmetry. apply (lookup_none_keys k0 d d' Hk Hn).
Qed.

Section RunTheorems.

Variable repr_float : float -> string.

(** The loop body returns its own results unchanged. *)
Lemma augment_twice (T T' : value) :
  (forall table, T = VDict table -> dict_wf table) ->
  augment repr_float T = Ok T' ->
  augment repr_float T' = Ok T'.
Proof.
  intros Hwf H.
  destruct T as [| | | | | |table]; try (injection H as <-; reflexivity).
  specialize (Hwf table eq_refl).
  destruct (augment_result repr_float table T' H)
    as [->|(xxs & xxl & Exxs & Exxl & ->)]; [exact H|].
  destruct (dict_has "xs" table) eqn:Hxs;
    [|rewrite augment_without_xs in H by exact Hxs; injection H as <-;
      apply augment_without_xs, Hxs].
  set (table2 := with_xxl xxl (with_xxs xxs table)).
  assert (Hxs2 : dict_has "xs" table2 = true).
  { unfold table2. rewrite augmented_has by discriminate. exact Hxs. }
  destruct (dict_has "xxs" table2 && dict_has "xxl" table2)%bool eqn:Hboth2.
  { apply andb_prop in Hboth2 as [H1 H2]. apply augment_with_both; assumption. }
  rewrite augment_runs by assumption.
  unfold table2 at 1 2.
  rewrite !augmented_get by (assumption || discriminate).
  rewrite Exxs, Exxl. cbn [bind].
  do 2 f_equal. apply augmented_again; assumption.
Qed.

(** X6.  On a tree-shaped store the run computes [augment] model by model.
    When it returns, the registry has the same keys in the same order and
    each model has the value [augment] returns for the value it had.  When
    it raises, some model makes [augment] raise that exception, and
    [augment] returns for every model before it in the registry. *)
Theorem run_computes_augment :
  forall s : store,
    tree_shaped s ->
    (forall s', add_enhanced_tiers repr_float s = Ok s' ->
       keys (registry_value s') = keys (registry_value s) /\
       forall k T, dict_lookup k (registry_value s) = Some T ->
         exists T', augment repr_float T = Ok T' /\
                    dict_lookup k (registry_value s') = Some T') /\
    (forall x, add_enhanced_tiers repr_float s = Raise x ->
       exists before k after T,
         keys (registry_value s) = before ++ k :: after /\
         dict_lookup k (registry_value s) = Some T /\
         augment repr_float T = Raise x /\
         forall k' T0, In k' before ->
           dict_lookup k' (registry_value s) = Some T0 ->
           exists T', augment repr_float T0 = Ok T').
Proof.
  intros s Hs. pose proof (run_refines repr_float s Hs) as H.
  unfold registry_value. split.
  - intros s' E. rewrite E in H. destruct H as (_ & Hkeys & Hvals).
    rewrite !keys_map_values. split; [exact Hkeys|].
    intros k T. rewrite map_dict_lookup.
    destruct (dict_lookup k (data s)) as [e|] eqn:Ee; [|discriminate].
    intros [= <-].
    destruct (Hvals k e Ee) as (T' & e' & Ha & Ee' & Hv).
    exists T'. split; [exact Ha|].
    rewrite map_dict_lookup, Ee'. simpl. congruence.
  - intros x E. rewrite E in H.
    destruct H as (before & k & after & e & Hkeys & Ee & Hx & Hbefore).
    exists before, k, after, (model_value s e).
    rewrite keys_map_values, map_dict_lookup, Ee.
    repeat (split; [first [assumption | reflexivity]|]).
    intros k' T0 Hin. rewrite map_dict_lookup.
    destruct (dict_lookup k' (data s)) as [e'|] eqn:Ee'; [|discriminate].
    intros [= <-]. apply (Hbefore k' e' Hin Ee').
Qed.

(** X7.  The condition [tree_shaped] under which the run is related to the
    loop body holds again of the store the run leaves: every reference to a
    table or a tier is allocated, the registry has distinct keys, and no
    two entries of the registry refer to the same table, although stores
    are made in place and tables are rebuilt.  The condition is about
    tables only: the fields of a tier are values of the model, so it says
    nothing of lists a derived tier has in common with the tier it was
    copied from. *)
Theorem run_keeps_tree_shape :
  forall s s' : store,
    tree_shaped s ->
    add_enhanced_tiers repr_float s = Ok s' ->
    tree_shaped s'.
Proof.
  intros s s' Hs E. pose proof (run_refines repr_float s Hs) as H.
  rewrite E in H. apply H.
Qed.

(** X8.  Running the script again changes nothing: when the run returns on
    a tree-shaped store whose tables have distinct keys, a second run on
    the store it leaves returns too, and the registry has the same value
    after it as before it. *)
Theorem second_run_changes_nothing :
  forall s s' : store,
    tree_shaped s ->
    tables_wf s ->
    add_enhanced_tiers repr_float s = Ok s' ->
    exists s'',
      add_enhanced_tiers repr_float s' = Ok s'' /\
      registry_value s'' = registry_value s'.
Proof.
  intros s s' Hs Htw E.
  pose proof (run_refines repr_float s Hs) as H. rewrite E in H.
  destruct H as (Hs' & Hkeys & Hvals).
  assert (Hfix : forall k e', dict_lookup k (data s') = Some e' ->
            augment repr_float (model_value s' e') = Ok (model_value s' e')).
  { intros k e' Ee'.
    destruct (lookup_some_keys k e' (data s') (data s) Hkeys Ee') as [e Ee].
    destruct (Hvals k e Ee) as (T' & e1 & Ha & Ee1 & Hv).
    rewrite Ee' in Ee1. injection Ee1 as <-. rewrite Hv.
    apply (augment_twice (model_value s e) T'); [|exact Ha].
    intros table Ht. destruct e as [t|o]; [|destruct o; discriminate].
    cbn [model_value] in Ht. injection Ht as <-.
    unfold dict_wf, table_value. rewrite keys_map_values.
    apply (Htw k t Ee). }
  pose proof (run_refines repr_float s' Hs') as H2.
  destruct (add_enhanced_tiers repr_float s') as [s''|x].
  - exists s''. split; [reflexivity|].
    destruct H2 as (Hs'' & Hkeys2 & Hvals2).
    unfold registry_value. apply dict_ext.
    + unfold dict_wf. rewrite keys_map_values. apply Hs''.
    + rewrite !keys_map_values. exact Hkeys2.
    + intros k. rewrite !map_dict_lookup.
      destruct (dict_lookup k (data s')) as [e'|] eqn:Ee'.
      * destruct (Hvals2 k e' Ee') as (T'' & e'' & Ha & Ee'' & Hv).
        rewrite (Hfix k e' Ee') in Ha. injection Ha as <-.
        rewrite Ee''. simpl. congruence.
      * rewrite (lookup_none_keys k (data s') (data s'') (eq_sym Hkeys2) Ee').
        reflexivity.
  - exfalso.
    destruct H2 as (before & k & after & e' & _ & Ee' & Hx & _).
    rewrite (Hfix k e' Ee') in Hx. discriminate.
Qed.

(** X9.  On a tree-shaped store all of whose models are typed tables the
    run returns, and the models it leaves are typed tables again. *)
Theorem typed_run_returns :
  forall s : store,
    tree_shaped s ->
    models_typed s ->
    exists s',
      add_enhanced_tiers repr_float s = Ok s' /\ models_typed s'.
Proof.
  intros s Hs Hty. pose proof (run_refines repr_float s Hs) as H.
  destruct (add_enhanced_tiers repr_float s) as [s'|x].
  - exists s'. split; [reflexivity|].
    destruct H as (_ & Hkeys & Hvals).
    intros k e' Ee'.
    destruct (lookup_some_keys k e' (data s') (data s) Hkeys Ee') as [e Ee].
    destruct (Hvals k e Ee) as (T' & e1 & Ha & Ee1 & Hv).
    rewrite Ee' in Ee1. injection Ee1 as <-.
    destruct (Hty k e Ee) as (table & Et & Htable).
    rewrite Et in Ha.
    destruct (augment_typed_returns repr_float table Htable) as [table' Ha'].
    rewrite Ha' in Ha. injection Ha as <-.
    exists table'. split; [exact Hv|].
    apply (augment_typed_result repr_float table table' Htable Ha').
  - exfalso.
    destruct H as (before & k & after & e & _ & Ee & Hx & _).
    destruct (Hty k e Ee) as (table & Et & Htable).
    rewrite Et in Hx.
    destruct (augment_typed_returns repr_float table Htable) as [table' Ha'].
    congruence.
Qed.

End RunTheorems.

(** ** Tests of the conditions on stores *)

Lemma refs_below_check (n : nat) (t : table) :
  refs_below_b n t = true -> refs_below n t.
Proof.
  unfold refs_below_b. rewrite forallb_forall. intros H k a Hin.
  specialize (H _ Hin). simpl in H. apply Nat.ltb_lt, H.
Qed.

Lemma distinct_strings_check (l : list string) :
  distinct_strings l = true -> NoDup l.
Proof.
  induction l as [|x l IH]; simpl; intros H; [constructor|].
  apply andb_prop in H as [H1 H2]. constructor; [|apply IH, H2].
  intros Hin. apply negb_true_iff in H1.
  assert (E : existsb (String.eqb x) l = true)
    by (apply existsb_exists; exists x; split; [exact Hin|apply String.eqb_refl]).
  congruence.
Qed.

Lemma distinct_addrs_check (l : list addr) :
  distinct_addrs l = true -> NoDup l.
Proof.
  induction l as [|x l IH]; simpl; intros H; [constructor|].
  apply andb_prop in H as [H1 H2]. constructor; [|apply IH, H2].
  intros Hin. apply negb_true_iff in H1.
  assert (E : existsb (Nat.eqb x) l = true)
    by (apply existsb_exists; exists x; split; [exact Hin|apply Nat.eqb_refl]).
  congruence.
Qed.

Lemma tree_shaped_check (s : store) : tree_shaped_b s = true -> tree_shaped s.
Proof.
  unfold tree_shaped_b. intros H.
  apply andb_prop in H as [H H4]. apply andb_prop in H as [H H3].
  apply andb_prop in H as [H1 H2].
  split; [split|split].
  - rewrite forallb_forall in H1. apply Forall_forall.
    intros t Hin. apply refs_below_check, H1, Hin.
  - apply refs_below_check, H2.
  - apply distinct_strings_check, H3.
  - apply distinct_addrs_check, H4.
Qed.

Lemma tables_wf_check (s : store) : tables_wf_b s = true -> tables_wf s.
Proof.
  unfold tables_wf_b. rewrite forallb_forall. intros H k t _.
  unfold read_table.
  destruct (Nat.lt_ge_cases t (List.length (tables s))) as [Hlt|Hge].
  - apply distinct_strings_check, H, nth_In, Hlt.
  - rewrite nth_overflow by exact Hge. constructor.
Qed.

Lemma models_typed_check (s : store) : models_typed_b s = true -> models_typed s.
Proof.
  unfold models_typed_b. rewrite forallb_forall. intros H k e Ee.
  destruct (dict_lookup_In _ _ _ Ee) as [k' Hin].
  specialize (H _ Hin). simpl in H.
  destruct (model_value s e) as [| | | | | |table]; try discriminate.
  exists table. auto.
Qed.

(** ** Worked examples of the further properties *)

Lemma tier_not_a_dictionary_witness :
  dict_lookup "xs" table_scalar_xs = Some (VInt 3) /\
  augment sample_repr_float (VDict table_scalar_xs) = Raise AttributeError.
Proof.
  split; [reflexivity|].
  apply (tier_not_a_dictionary sample_repr_float table_scalar_xs eq_refl eq_refl).
  reflexivity.
Defined.


Lemma derived_tier_keeps_source_keys_witness :
  derive_xxs sample_repr_float scenario_xs = Ok scenario_xxs_built /\
  exists extra, keys scenario_xxs_built = keys scenario_xs ++ extra.
Proof.
  assert (E : derive_xxs sample_repr_float scenario_xs = Ok scenario_xxs_built)
    by (vm_compute; reflexivity).
  split; [exact E|].
  destruct (proj1 (derived_tier_keeps_source_keys sample_repr_float)
              scenario_xs scenario_xxs_built E) as ((extra & Hk & _) & _).
  exists extra. exact Hk.
Defined.

Lemma xxl_bounds_witness :
  exists xxl,
    derive_xxl xl_doubles = Ok xxl /\
    dict_lookup "max_train_epochs" xxl = Some (VInt 8) /\
    dict_lookup "train_batch_size" xxl = Some (VInt 16) /\
    exists y, dict_lookup "unet_lr" xxl = Some (VFloat y) /\
              (y <=? 5e-05)%float = true.
Proof.
  destruct (derive_xxl xl_doubles) as [xxl|e] eqn:E;
    [|vm_compute in E; discriminate].
  exists xxl. split; [reflexivity|].
  destruct (xxl_bounds xl_doubles xxl E) as (_ & _ & Hu & _).
  vm_compute in E. injection E as <-.
  split; [reflexivity|]. split; [reflexivity|].
  destruct (Hu _ eq_refl) as (y & Hy & Hle).
  exists y. split; [rewrite <- Hy; reflexivity|exact Hle].
Defined.

Lemma typing_is_kept_witness :
  TierConfig_typed scenario_xs = true /\
  derive_xxs sample_repr_float scenario_xs = Ok scenario_xxs_built /\
  TierConfig_typed scenario_xxs_built = true.
Proof.
  assert (E : derive_xxs sample_repr_float scenario_xs = Ok scenario_xxs_built)
    by (vm_compute; reflexivity).
  split; [reflexivity|]. split; [exact E|].
  exact (proj1 (typing_is_kept sample_repr_float)
           scenario_xs scenario_xxs_built eq_refl E).
Defined.

Lemma run_computes_augment_witness :
  tree_shaped store_text_epochs /\
  add_enhanced_tiers sample_repr_float store_text_epochs = Raise TypeError /\
  exists before k after T,
    keys (registry_value store_text_epochs) = before ++ k :: after /\
    dict_lookup k (registry_value store_text_epochs) = Some T /\
    augment sample_repr_float T = Raise TypeError.
Proof.
  assert (Hs : tree_shaped store_text_epochs)
    by (apply tree_shaped_check; reflexivity).
  assert (E : add_enhanced_tiers sample_repr_float store_text_epochs =
              Raise TypeError) by (vm_compute; reflexivity).
  split; [exact Hs|]. split; [exact E|].
  destruct (proj2 (run_computes_augment sample_repr_float store_text_epochs Hs)
              TypeError E) as (before & k & after & T & Hk & HT & Hx & _).
  exists before, k, after, T. auto.
Defined.

Lemma run_keeps_tree_shape_witness :
  tree_shaped store_one_model /\
  add_enhanced_tiers sample_repr_float store_one_model = Ok store_one_model_after /\
  tree_shaped store_one_model_after.
Proof.
  assert (Hs : tree_shaped store_one_model)
    by (apply tree_shaped_check; reflexivity).
  assert (E : add_enhanced_tiers sample_repr_float store_one_model =
              Ok store_one_model_after) by (vm_compute; reflexivity).
  split; [exact Hs|]. split; [exact E|].
  exact (run_keeps_tree_shape sample_repr_float _ _ Hs E).
Defined.

Lemma second_run_changes_nothing_witness :
  tree_shaped store_empty_xs /\
  tables_wf store_empty_xs /\
  exists s' s'',
    add_enhanced_tiers sample_repr_float store_empty_xs = Ok s' /\
    add_enhanced_tiers sample_repr_float s' = Ok s'' /\
    registry_value s'' = registry_value s'.
Proof.
  assert (Hs : tree_shaped store_empty_xs)
    by (apply tree_shaped_check; reflexivity).
  assert (Hw : tables_wf store_empty_xs)
    by (apply tables_wf_check; reflexivity).
  split; [exact Hs|]. split; [exact Hw|].
  destruct (add_enhanced_tiers sample_repr_float store_empty_xs) as [s'|e] eqn:E;
    [|vm_compute in E; discriminate].
  destruct (second_run_changes_nothing sample_repr_float _ s' Hs Hw E)
    as (s'' & E2 & Hv).
  exists s', s''. auto.
Defined.

Lemma typed_run_returns_witness :
  tree_shaped store_one_model /\
  models_typed store_one_model /\
  exists s',
    add_enhanced_tiers sample_repr_float store_one_model = Ok s' /\
    models_typed s'.
Proof.
  assert (Hs : tree_shaped store_one_model)
    by (apply tree_shaped_check; reflexivity).
  assert (Ht : models_typed store_one_model)
    by (apply models_typed_check; reflexivity).
  split; [exact Hs|]. split; [exact Ht|].
  exact (typed_run_returns sample_repr_float store_one_model Hs Ht).
Defined.

(** * The test of line 35 on a list of strings *)

Lemma str_app_assoc (a b c : string) : ((a ++ b) ++ c = a ++ (b ++ c))%string.
Proof. induction a as [|x a IH]; simpl; [reflexivity|rewrite IH; reflexivity]. Qed.

Lemma prefix_cons (a b : ascii) (s1 s2 : string) :
  String.prefix (String a s1) (String b s2) =
  if Ascii.eqb a b then String.prefix s1 s2 else false.
Proof.
  simpl. destruct (ascii_dec a b) as [->|Hne].
  - rewrite Ascii.eqb_refl. reflexivity.
  - destruct (Ascii.eqb_spec a b); [contradiction|reflexivity].
Qed.

Lemma prefix_empty (s : string) : String.prefix "" s = true.
Proof. destruct s; reflexivity. Qed.

Lemma prefix_nil (a : ascii) (s : string) : String.prefix (String a s) "" = false.
Proof. reflexivity. Qed.

Lemma contains_cons (needle : string) (c : ascii) (hay : string) :
  contains needle (String c hay) =
  (String.prefix needle (String c hay) || contains needle hay)%bool.
Proof.
  cbn [contains]. destruct (String.prefix needle (String c hay)); reflexivity.
Qed.

Lemma contains_nil (a : ascii) (s : string) : contains (String a s) "" = false.
Proof. reflexivity. Qed.

(** A prefix of the word cannot run over a character the word lacks. *)
Lemma prefix_app_stop (m : string) (c : ascii) (a b : string) :
  has_char c m = false ->
  String.prefix m (a ++ String c b) = String.prefix m a.
Proof.
  revert m. induction a as [|x a IH]; intros [|y m] Hc; simpl in Hc.
  - reflexivity.
  - cbn [append]. rewrite prefix_cons, prefix_nil.
    destruct (Ascii.eqb_spec c y) as [->|Hne]; [discriminate|].
    destruct (Ascii.eqb_spec y c); [congruence|reflexivity].
  - reflexivity.
  - cbn [append]. rewrite !prefix_cons.
    destruct (Ascii.eqb c y); [discriminate|].
    destruct (Ascii.eqb y x); [apply IH, Hc|reflexivity].
Qed.

(** An occurrence of the word lies on one side of a character the word
    lacks. *)
Lemma contains_app_stop (n : ascii) (m : string) (c : ascii) (a b : string) :
  has_char c (String n m) = false ->
  contains (String n m) (a ++ String c b) =
  (contains (String n m) a || contains (String n m) b)%bool.
Proof.
  intros Hc. induction a as [|x a IH].
  - cbn [append]. rewrite contains_cons, contains_nil.
    pose proof (prefix_app_stop (String n m) c "" b Hc) as P.
    cbn [append] in P. rewrite P. reflexivity.
  - cbn [append]. rewrite !contains_cons, IH.
    change (String x (a ++ String c b)) with ((String x a) ++ String c b)%string.
    rewrite (prefix_app_stop (String n m) c (String x a) b Hc).
    rewrite orb_assoc. reflexivity.
Qed.

Lemma contains_stop_head (n : ascii) (m : string) (c : ascii) (b : string) :
  has_char c (String n m) = false ->
  contains (String n m) (String c b) = contains (String n m) b.
Proof.
  intros Hc. pose proof (contains_app_stop n m c "" b Hc) as P.
  cbn [append] in P. rewrite P, contains_nil. reflexivity.
Qed.

(** An occurrence of the word starts at its first character. *)
Lemma contains_skip (n : ascii) (m t r : string) :
  has_char n t = false ->
  contains (String n m) (t ++ r) = contains (String n m) r.
Proof.
  induction t as [|x t IH]; intros Hn; [reflexivity|].
  simpl in Hn. destruct (Ascii.eqb n x) eqn:E; [discriminate|].
  cbn [append]. rewrite contains_cons, prefix_cons, E. apply IH, Hn.
Qed.

Lemma repr_char_keeps_word_squote (c : ascii) :
  repr_char_keeps_word squote c = true.
Proof.
  destruct c as [b0 b1 b2 b3 b4 b5 b6 b7].
  destruct b0, b1, b2, b3, b4, b5, b6, b7; vm_compute; reflexivity.
Qed.

Lemma repr_char_keeps_word_dquote (c : ascii) :
  repr_char_keeps_word dquote c = true.
Proof.
  destruct c as [b0 b1 b2 b3 b4 b5 b6 b7].
  destruct b0, b1, b2, b3, b4, b5, b6, b7; vm_compute; reflexivity.
Qed.

Section ReprChars.

Variable quote : ascii.
Hypothesis quote_keeps : forall c, repr_char_keeps_word quote c = true.

Lemma repr_char_word (c : ascii) :
  word_char c = true -> repr_char quote c = String c "".
Proof.
  intros Hw. pose proof (quote_keeps c) as H.
  unfold repr_char_keeps_word in H. rewrite Hw in H.
  apply String.eqb_eq, H.
Qed.

Lemma repr_char_other (c : ascii) :
  word_char c = false ->
  exists c0 t, repr_char quote c = String c0 t /\
               word_char c0 = false /\
               has_char "w"%char (String c0 t) = false.
Proof.
  intros Hw. pose proof (quote_keeps c) as H.
  unfold repr_char_keeps_word in H. rewrite Hw in H.
  destruct (repr_char quote c) as [|c0 t]; [discriminate|].
  apply andb_prop in H as [H1 H2].
  exists c0, t. split; [reflexivity|].
  split; [apply negb_true_iff, H1|apply negb_true_iff, H2].
Qed.

Lemma word_char_neq (x y : ascii) :
  word_char x = true -> word_char y = false -> Ascii.eqb x y = false.
Proof.
  intros Hx Hy. destruct (Ascii.eqb_spec x y); [congruence|reflexivity].
Qed.

Lemma prefix_repr_chars (m s : string) :
  all_word m = true ->
  String.prefix m (repr_chars quote s) = String.prefix m s.
Proof.
  revert m. induction s as [|c s IH]; intros m Hm; [reflexivity|].
  destruct m as [|y m]; [rewrite !prefix_empty; reflexivity|].
  simpl in Hm. apply andb_prop in Hm as [Hy Hm].
  cbn [repr_chars]. rewrite prefix_cons.
  destruct (word_char c) eqn:Hc.
  - rewrite (repr_char_word c Hc). cbn [append]. rewrite prefix_cons.
    destruct (Ascii.eqb y c); [apply IH, Hm|reflexivity].
  - destruct (repr_char_other c Hc) as (c0 & t & -> & Hc0 & _).
    cbn [append]. rewrite prefix_cons.
    rewrite (word_char_neq y c0 Hy Hc0), (word_char_neq y c Hy Hc).
    reflexivity.
Qed.

(** Escaping neither makes nor breaks an occurrence of the word. *)
Lemma contains_repr_chars (s : string) :
  contains "weight_decay" (repr_chars quote s) = contains "weight_decay" s.
Proof.
  induction s as [|c s IH]; [reflexivity|].
  rewrite contains_cons. cbn [repr_chars].
  destruct (word_char c) eqn:Hc.
  - rewrite (repr_char_word c Hc). cbn [append]. rewrite contains_cons, IH.
    f_equal.
    change (String c (repr_chars quote s)) with
      (String c "" ++ repr_chars quote s)%string.
    rewrite <- (repr_char_word c Hc).
    change (repr_char quote c ++ repr_chars quote s)%string
      with (repr_chars quote (String c s)).
    apply prefix_repr_chars. reflexivity.
  - destruct (repr_char_other c Hc) as (c0 & t & -> & _ & Hw).
    rewrite (contains_skip "w" "eight_decay" (String c0 t) _ Hw), IH.
    rewrite prefix_cons.
    assert (E : Ascii.eqb "w" c = false).
    { apply word_char_neq; [reflexivity|exact Hc]. }
    rewrite E. reflexivity.
Qed.

End ReprChars.

Lemma contains_repr_str (s rest : string) :
  contains "weight_decay" (repr_str s ++ rest) =
  (contains "weight_decay" s || contains "weight_decay" rest)%bool.
Proof.
  unfold repr_str.
  set (q := if (has_char squote s && negb (has_char dquote s))%bool
            then dquote else squote).
  assert (Hq : has_char q "weight_decay" = false)
    by (unfold q; destruct (has_char squote s && negb (has_char dquote s))%bool;
        reflexivity).
  assert (Hk : forall c, repr_char_keeps_word q c = true).
  { unfold q. destruct (has_char squote s && negb (has_char dquote s))%bool;
      [apply repr_char_keeps_word_dquote|apply repr_char_keeps_word_squote]. }
  cbn [append].
  rewrite (contains_stop_head "w" "eight_decay" q _ Hq).
  rewrite str_app_assoc. cbn [append].
  rewrite (contains_app_stop "w" "eight_decay" q _ _ Hq).
  rewrite (contains_repr_chars q Hk). reflexivity.
Qed.

Lemma contains_joined (l : list string) :
  contains "weight_decay" (join ", " (map repr_str l) ++ "]") =
  existsb (contains "weight_decay") l.
Proof.
  induction l as [|s l IH]; [reflexivity|].
  destruct l as [|s2 l].
  - cbn [map join existsb]. rewrite contains_repr_str.
    reflexivity.
  - cbn [map join]. cbn [map] in IH.
    rewrite !str_app_assoc. rewrite contains_repr_str.
    cbn [existsb]. f_equal.
    cbn [append].
    rewrite (contains_stop_head "w" "eight_decay" "," _ eq_refl).
    rewrite (contains_stop_head "w" "eight_decay" " " _ eq_refl).
    exact IH.
Qed.

(** X10.  When [optimizer_args] is a list of strings, the test of line 35
    holds exactly when one of the strings contains [weight_decay]: the
    quotes, the escapes and the separators [str] writes neither make nor
    hide an occurrence of the word. *)
Theorem weight_decay_test_on_strings :
  forall (repr_float : float -> string) (config : dict) (args : list string),
    dict_lookup "optimizer_args" config = Some (VList (map VStr args)) ->
    mentions_weight_decay repr_float config =
    existsb (contains "weight_decay") args.
Proof.
  intros repr_float config args H.
  unfold mentions_weight_decay, dict_get. rewrite H.
  cbn [py_str repr]. rewrite map_map. cbn [repr].
  change (map (fun x : string => repr_str x) args) with (map repr_str args).
  cbn [append].
  rewrite (contains_stop_head "w" "eight_decay" "[" _ eq_refl).
  apply contains_joined.
Qed.


Lemma weight_decay_test_on_strings_witness :
  dict_lookup "optimizer_args"
    [("optimizer_args", VList (map VStr ["decouple=True"; "weight_decay=0.01"]))] =
    Some (VList (map VStr ["decouple=True"; "weight_decay=0.01"])) /\
  mentions_weight_decay sample_repr_float
    [("optimizer_args", VList (map VStr ["decouple=True"; "weight_decay=0.01"]))] =
    true.
Proof.
  split; [reflexivity|].
  rewrite (weight_decay_test_on_strings sample_repr_float
             [("optimizer_args",
               VList (map VStr ["decouple=True"; "weight_decay=0.01"]))]
             ["decouple=True"; "weight_decay=0.01"] eq_refl).
  reflexivity.
Defined.
